(** * Agent session and authentication orchestration (src/chat/agentforce.ts)

    A shallow embedding of the credential providers, the retry utility, the
    session manager and the message dispatcher, together with the endpoint
    helpers of src/chat/config.ts they call.  Asynchronous code is written in
    a state-and-exception monad over a [World]: the two "use cache" slots,
    the chronicle of the calls that left the process, and the console. *)

From Stdlib Require Import ZArith NArith List Ascii String Lia Floats.
From stdpp Require Import base option gmap strings pretty.
Import ListNotations.

Local Open Scope string_scope.
Local Open Scope Z_scope.
Local Open Scope list_scope.

(** ** Data model *)

(** [export type AuthMode = "direct" | "applink"]. *)
Inductive AuthMode := direct | applink.

#[global] Instance AuthMode_eq_dec : EqDecision AuthMode.
Proof. solve_decision. Defined.

#[global] Instance AuthMode_countable : Countable AuthMode.
Proof.
  refine (inj_countable' (fun m => match m with direct => false | applink => true end)
                         (fun b : bool => if b then applink else direct) _).
  intros []; reflexivity.
Defined.

(** [interface AuthCredentials]. *)
Record AuthCredentials := mkCredentials {
  accessToken : string;
  apiInstanceUrl : string
}.

(** The part of an axios error the code inspects: [error.message],
    [error.code] and [error.response] with its [status] and [statusText]. *)
Record AxiosResponse := mkResponse {
  status : Z;
  statusText : string
}.

Record AxiosError := mkAxiosError {
  message : string;
  code : option string;
  response : option AxiosResponse
}.

(** What a [catch (error)] clause can receive. *)
Inductive Thrown :=
| AxiosErr (e : AxiosError)   (* [axios.isAxiosError(error)] holds *)
| PlainError (msg : string)   (* [new Error(msg)] *)
| NonError (v : string).      (* a thrown value that is no [Error] instance *)

(** [data] of the OAuth token response, of the AppLink authorization and of
    the session creation response; an absent property is [None]. *)
Record TokenData := mkTokenData {
  access_token : option string;
  api_instance_url : option string
}.

Record AuthData := mkAuthData {
  auth_accessToken : option string;
  domainUrl : option string
}.

Record SessionData := mkSessionData {
  sessionId : option string;
  details : string
}.

(** JavaScript truthiness of a possibly absent string, and [`${v}`]. *)
Definition truthy (v : option string) : bool :=
  match v with
  | Some s => negb (String.eqb s "")
  | None => false
  end.

Definition template (v : option string) : string :=
  match v with
  | Some s => s
  | None => "undefined"
  end.

(** [a || b] on possibly absent strings. *)
Definition orElse (a b : option string) : option string :=
  if truthy a then a else b.

(** ** Message text: UTF-16 code units and [String.prototype.trim] *)

(** ECMAScript WhiteSpace and LineTerminator code points. *)
Definition isWhiteSpace (c : N) : bool :=
  (existsb (N.eqb c)
     [9; 10; 11; 12; 13; 32; 160; 5760; 8232; 8233; 8239; 8287; 12288; 65279]
   || ((8192 <=? c) && (c <=? 8202)))%N.

Fixpoint trimStart (s : list N) : list N :=
  match s with
  | [] => []
  | c :: rest => if isWhiteSpace c then trimStart rest else s
  end.

Definition trimEnd (s : list N) : list N := rev (trimStart (rev s)).

Definition trim (s : list N) : list N := trimEnd (trimStart s).

(** [!text || text.trim().length === 0]. *)
Definition emptyText (text : list N) : bool :=
  match text with [] => true | _ => false end
  || Nat.eqb (List.length (trim text)) 0.

(** [sequenceId < 0] on an IEEE 754 double; [typeof sequenceId !== 'number']
    is excluded by the parameter's type. *)
Definition negativeNumber (sequenceId : float) : bool :=
  PrimFloat.ltb sequenceId 0%float.

(** A double that is a non-negative integer (finite, not below zero, no
    fractional part): the Message invariant as the data model words it. *)
Definition nonNegativeInteger (x : float) : bool :=
  match Prim2SF x with
  | S754_zero _ => true
  | S754_finite false m e => (0 <=? e) || (Z.pos m mod 2 ^ (- e) =? 0)
  | _ => false
  end.

(** ** Configuration (src/chat/config.ts over [@/config/env]) *)

(** How the server runs: [next dev], or the server of a production build. *)
Inductive Runtime := development | production.

Record Env := mkEnv {
  SF_MY_DOMAIN_URL : string;
  SF_CONSUMER_KEY : string;
  SF_CONSUMER_SECRET : string;
  SF_AGENT_ID : option string;
  SF_JWT_CONNECTION_NAME : string;
  NODE_ENV : Runtime
}.

(** The message of the error a production server hands to the caller of a
    "use cache" function that threw. *)
Definition omittedMessage : string :=
  "An error occurred in the Server Components render. The specific message is omitted in production builds to avoid leaking sensitive details. A digest property is included on this error instance which may provide additional details about the nature of the error.".

(** An error thrown inside a "use cache" function, as its caller receives
    it: as it is in development; on a production server a plain [Error]
    that carries [omittedMessage] instead of the message thrown. *)
Definition acrossCache (runtime : Runtime) (error : Thrown) : Thrown :=
  match runtime with
  | development => error
  | production => PlainError omittedMessage
  end.

(** [s.replace(pat, rep)] with a string pattern: the first occurrence only. *)
Fixpoint replaceFirst (pat rep s : string) : string :=
  if String.prefix pat s
  then rep +:+ String.substring (String.length pat) (String.length s - String.length pat) s
  else match s with
       | EmptyString => EmptyString
       | String c rest => String c (replaceFirst pat rep rest)
       end.

Module agentConfig.
Definition baseUrl (env : Env) : string :=
  replaceFirst "https://" "" (SF_MY_DOMAIN_URL env).
Definition clientId (env : Env) : string := SF_CONSUMER_KEY env.
Definition clientSecret (env : Env) : string := SF_CONSUMER_SECRET env.
Definition agentId (env : Env) : option string := SF_AGENT_ID env.
Definition getAuthEndpoint (env : Env) : string :=
  "https://" +:+ baseUrl env +:+ "/services/oauth2/token".
Definition getApiEndpoint (env : Env) (path : string) : string :=
  "https://" +:+ baseUrl env +:+ path.
Definition getAgentSessionEndpoint (env : Env) : string :=
  "/einstein/ai-agent/v1/agents/" +:+ template (agentId env) +:+ "/sessions".
Definition getSessionEndpoint (sessionId : string) : string :=
  "/einstein/ai-agent/v1/sessions/" +:+ sessionId.
Definition getStreamingEndpoint (sessionId : string) : string :=
  "/einstein/ai-agent/v1/sessions/" +:+ sessionId +:+ "/messages/stream".
End agentConfig.

Definition getJwtConnectionName (env : Env) : string := SF_JWT_CONNECTION_NAME env.

(** ** The world outside the process *)

(** A call that left the process, as the chronicle keeps it. *)
Inductive Event :=
| TokenRequest (url client_id client_secret : string)
| GetAuthorization (name : string)
| CreateSession (url authorization externalSessionKey endpoint : string)
| DeleteSession (url authorization : string)
| PostMessage (url authorization : string) (sequenceId : float) (text : list N)
| Sleep (ms : Z).

Definition isTokenRequest (e : Event) : bool :=
  match e with TokenRequest _ _ _ => true | _ => false end.
Definition isGetAuthorization (e : Event) : bool :=
  match e with GetAuthorization _ => true | _ => false end.
Definition isCreateSession (e : Event) : bool :=
  match e with CreateSession _ _ _ _ => true | _ => false end.
Definition isDeleteSession (e : Event) : bool :=
  match e with DeleteSession _ _ => true | _ => false end.
Definition isPostMessage (e : Event) : bool :=
  match e with PostMessage _ _ _ _ => true | _ => false end.
Definition isSleep (e : Event) : bool :=
  match e with Sleep _ => true | _ => false end.

(** How many events of one kind the chronicle holds. *)
Definition issued (kind : Event -> bool) (chronicle : list Event) : nat :=
  List.length (List.filter kind chronicle).

(** How a promise settles. *)
Inductive Settled (A : Type) :=
| Fulfilled (value : A)
| Rejected (reason : Thrown).
Arguments Fulfilled {A} value.
Arguments Rejected {A} reason.

(** The answers of the outside: the k-th request of each kind (counted from
    0 over the whole chronicle) settles as the corresponding function says;
    [randomUUID] is read at the current length of the chronicle. *)
Record Outside := mkOutside {
  oauth : nat -> Settled TokenData;
  authorizations : nat -> Settled AuthData;
  sessions : nat -> Settled SessionData;
  deletions : nat -> Settled string;
  streams : nat -> Settled string;
  randomUUID : nat -> string
}.

(** A line of the console. *)
Inductive LogLine :=
| LogError (label : string) (error : Thrown)
| LogWarn (text : string).

(** The state the operations thread: the entry of [getToken]'s "use cache"
    (tag "token"), the entries of [getSession]'s "use cache" (tag "session"),
    the chronicle and the console, both newest first.  The directive
    memoises a function on its arguments, so [getToken] has one entry and
    [getSession] one per pair of agent id and mode; an error such a
    function throws reaches its caller through [acrossCache].  An entry lives for the
    cache window; no entry expires while one operation runs, and what has
    expired between two operations is simply absent from the world the
    second one starts in. *)
Record World := mkWorld {
  tokenCache : option AuthCredentials;
  sessionCache : gmap (option string * AuthMode) SessionData;
  chronicle : list Event;
  console : list LogLine
}.

Definition emit (e : Event) (w : World) : World :=
  mkWorld (tokenCache w) (sessionCache w) (e :: chronicle w) (console w).

Definition logLine (l : LogLine) (w : World) : World :=
  mkWorld (tokenCache w) (sessionCache w) (chronicle w) (l :: console w).

Definition storeToken (c : AuthCredentials) (w : World) : World :=
  mkWorld (Some c) (sessionCache w) (chronicle w) (console w).

Definition storeSession (k : option string * AuthMode) (d : SessionData) (w : World) : World :=
  mkWorld (tokenCache w) (<[k := d]> (sessionCache w)) (chronicle w) (console w).

(** [revalidateTag("session")]: every entry tagged "session" is dropped. *)
Definition revalidateSessionTag (w : World) : World :=
  mkWorld (tokenCache w) ∅ (chronicle w) (console w).

(** ** The monad of asynchronous code *)

Inductive Result (A : Type) :=
| Ok (value : A)
| Throw (error : Thrown).
Arguments Ok {A} value.
Arguments Throw {A} error.

Definition M (A : Type) : Type := World -> Result A * World.

#[global] Instance M_ret : MRet M := fun A (a : A) w => (Ok a, w).

#[global] Instance M_bind : MBind M := fun A B (k : A -> M B) (m : M A) w =>
  match m w with
  | (Ok a, w') => k a w'
  | (Throw e, w') => (Throw e, w')
  end.

Definition throw {A} (e : Thrown) : M A := fun w => (Throw e, w).

(** [try { body } catch (error) { handler error }]. *)
Definition tryCatch {A} (body : M A) (handler : Thrown -> M A) : M A := fun w =>
  match body w with
  | (Ok a, w') => (Ok a, w')
  | (Throw e, w') => handler e w'
  end.

Definition consoleError (label : string) (error : Thrown) : M unit :=
  fun w => (Ok tt, logLine (LogError label error) w).

Definition consoleWarn (text : string) : M unit :=
  fun w => (Ok tt, logLine (LogWarn text) w).

(** Awaiting a request: the event enters the chronicle and the promise
    settles as the outside decides. *)
Definition await {A} (e : Event) (answer : Settled A) : M A := fun w =>
  match answer with
  | Fulfilled a => (Ok a, emit e w)
  | Rejected r => (Throw r, emit e w)
  end.

(** The next request of one kind: its answer is the outside's for the number
    of such requests already in the chronicle. *)
Definition request {A} (kind : Event -> bool) (e : Event) (answers : nat -> Settled A)
  : M A :=
  fun w => await e (answers (issued kind (chronicle w))) w.

(** [revalidateTag("session")]. *)
Definition revalidateTag_session : M unit := fun w => (Ok tt, revalidateSessionTag w).

(** [await new Promise(resolve => setTimeout(resolve, ms))]. *)
Definition sleep (ms : Z) : M unit := fun w => (Ok tt, emit (Sleep ms) w).

(** ** The operations of src/chat/agentforce.ts *)

(** [axios.isAxiosError(error) && error.response?.status &&
    error.response.status < 500]: the guard of the retry utility. *)
Definition clientError (error : Thrown) : bool :=
  match error with
  | AxiosErr e =>
      match response e with
      | Some r => negb (status r =? 0) && (status r <? 500)
      | None => false
      end
  | _ => false
  end.

Section RetryOperation.
Context {T : Type} (operation : M T) (maxRetries : nat) (delayMs : Z).

(** The [for] loop from [attempt] on, with [remaining = maxRetries - attempt]
    further iterations allowed. *)
Fixpoint retryFrom (remaining attempt : nat) : M T := fun w =>
  match operation w with
  | (Ok v, w') => (Ok v, w')
  | (Throw error, w') =>
      if clientError error then (Throw error, w')
      else match remaining with
           | O => (Throw error, w')
           | S remaining' =>
               retryFrom remaining' (S attempt)
                 (snd (sleep (delayMs * (Z.of_nat attempt + 1)) w'))
           end
  end.

Definition retryOperation : M T := retryFrom maxRetries O.
End RetryOperation.

Section Agentforce.
Context (env : Env) (outside : Outside).

(** [crypto.randomUUID()]. *)
Definition crypto_randomUUID : M string :=
  fun w => (Ok (randomUUID outside (List.length (chronicle w))), w).

(** *** Credential providers *)

Definition statusTextOf (e : AxiosError) : option string :=
  match response e with Some r => Some (statusText r) | None => None end.

Definition is5xx (e : AxiosError) : bool :=
  match response e with Some r => 500 <=? status r | None => false end.

Definition hasStatus (e : AxiosError) (s : Z) : bool :=
  match response e with Some r => status r =? s | None => false end.

Definition hasCode (e : AxiosError) (c : string) : bool :=
  match code e with Some c' => String.eqb c' c | None => false end.

(** [`${error.response?.status || 'Network error'}`]. *)
Definition statusOrNetworkError (e : AxiosError) : string :=
  match response e with
  | Some r => if status r =? 0 then "Network error" else pretty (status r)
  | None => "Network error"
  end.

(** [`${error.response?.statusText || 'Network error'}`]. *)
Definition statusTextOrNetworkError (e : AxiosError) : string :=
  match orElse (statusTextOf e) (Some "Network error") with
  | Some s => s
  | None => "Network error"
  end.

Definition getTokenCatch (error : Thrown) : M AuthCredentials :=
  consoleError "Authentication failed:" error ;;
  match error with
  | AxiosErr e =>
      if hasCode e "ECONNABORTED"
      then throw (PlainError "Authentication timeout: Unable to connect to Salesforce")
      else if hasStatus e 401
      then throw (PlainError "Authentication failed: Invalid client credentials")
      else if is5xx e
      then throw (PlainError "Authentication failed: Salesforce service temporarily unavailable")
      else throw (PlainError ("Authentication failed: " +:+ statusOrNetworkError e))
  | _ => throw (PlainError "Authentication failed: Unable to connect to Salesforce")
  end.

(** The body of [getToken], run on a miss of its cache entry. *)
Definition requestToken : M AuthCredentials :=
  tryCatch
    (data ← request isTokenRequest
               (TokenRequest (agentConfig.getAuthEndpoint env)
                             (agentConfig.clientId env)
                             (agentConfig.clientSecret env))
               (oauth outside);
     if negb (truthy (access_token data)) || negb (truthy (api_instance_url data))
     then throw (PlainError
            "Invalid authentication response: missing access token or API instance URL")
     else
       let accessToken := template (access_token data) in
       let apiInstanceUrl := template (api_instance_url data) in
       mret (mkCredentials accessToken apiInstanceUrl))
    getTokenCatch.

(** [getToken] under "use cache": a stored value is returned as it is; a
    value the body resolves to is stored; a rejection is not stored, and
    reaches the caller across the boundary of the cached function. *)
Definition getToken : M AuthCredentials := fun w =>
  match tokenCache w with
  | Some c => (Ok c, w)
  | None =>
      match requestToken w with
      | (Ok c, w') => (Ok c, storeToken c w')
      | (Throw e, w') => (Throw (acrossCache (NODE_ENV env) e), w')
      end
  end.

Definition getTokenFromAppLinkCatch (error : Thrown) : M AuthCredentials :=
  consoleError "AppLink authentication failed:" error ;;
  match error with
  | AxiosErr e => throw (PlainError ("AppLink authentication failed: " +:+ message e))
  | PlainError msg => throw (PlainError ("AppLink authentication failed: " +:+ msg))
  | NonError _ =>
      throw (PlainError "AppLink authentication failed: Unable to retrieve credentials")
  end.

Definition getTokenFromAppLink : M AuthCredentials :=
  let authorizationName := getJwtConnectionName env in
  tryCatch
    (authData ← request isGetAuthorization (GetAuthorization authorizationName)
                   (authorizations outside);
     if negb (truthy (auth_accessToken authData))
     then throw (PlainError "Invalid AppLink authorization response: missing access token")
     else mret (mkCredentials (template (auth_accessToken authData))
                              "https://api.salesforce.com"))
    getTokenFromAppLinkCatch.

Definition getCredentials (mode : AuthMode) : M AuthCredentials :=
  match mode with
  | applink => getTokenFromAppLink
  | direct => getToken
  end.

(** *** Session manager *)

Definition newSessionCatch (error : Thrown) : M SessionData :=
  consoleError "Session creation failed:" error ;;
  match error with
  | AxiosErr e =>
      if hasCode e "ECONNABORTED"
      then throw (PlainError
             "Session creation timeout: Agentforce service is taking too long to respond")
      else if hasStatus e 401
      then throw (PlainError "Session creation failed: Authentication expired")
      else if hasStatus e 403
      then throw (PlainError "Session creation failed: Access denied to Agentforce agent")
      else if hasStatus e 404
      then throw (PlainError "Session creation failed: Agentforce agent not found")
      else if is5xx e
      then throw (PlainError
             "Session creation failed: Agentforce service temporarily unavailable")
      else throw (PlainError ("Session creation failed: " +:+ statusTextOrNetworkError e))
  | _ => throw error
  end.

(** The operation [newSession] hands to [retryOperation]. *)
Definition newSessionAttempt (agentId : option string) (authMode : AuthMode)
  : M SessionData :=
  tryCatch
    (creds ← getCredentials authMode;
     uuid ← crypto_randomUUID;
     let targetAgentId := orElse agentId (agentConfig.agentId env) in
     if negb (truthy targetAgentId)
     then throw (PlainError "No agent ID provided and no default agent configured")
     else
       data ← request isCreateSession
                 (CreateSession
                    (apiInstanceUrl creds +:+ "/einstein/ai-agent/v1/agents/"
                       +:+ template targetAgentId +:+ "/sessions")
                    ("Bearer " +:+ accessToken creds)
                    uuid
                    ("https://" +:+ agentConfig.baseUrl env +:+ "/"))
                 (sessions outside);
       if negb (truthy (sessionId data))
       then throw (PlainError "Invalid session response: missing session ID")
       else mret data)
    newSessionCatch.

Definition newSession (agentId : option string) (authMode : AuthMode) : M SessionData :=
  retryOperation (newSessionAttempt agentId authMode) 2 1500.

(** [getSession] under "use cache", keyed by its arguments; what
    [newSession] throws crosses the boundary of the cached function. *)
Definition getSession (agentId : option string) (authMode : AuthMode) : M SessionData :=
  fun w =>
    match sessionCache w !! (agentId, authMode) with
    | Some session => (Ok session, w)
    | None =>
        match newSession agentId authMode w with
        | (Ok session, w') => (Ok session, storeSession (agentId, authMode) session w')
        | (Throw e, w') => (Throw (acrossCache (NODE_ENV env) e), w')
        end
    end.

(** [endSession] returns the DELETE's [data], or [null] ([None]). *)
Definition endSessionCatch (error : Thrown) : M (option string) :=
  consoleError "Session end failed:" error ;;
  (match error with
   | AxiosErr e =>
       if negb (hasStatus e 404)
       then consoleWarn "Failed to properly end session, but continuing..."
       else mret tt
   | _ => mret tt
   end) ;;
  mret None.

Definition endSession (authMode : AuthMode) : M (option string) :=
  tryCatch
    (creds ← getCredentials authMode;
     session ← getSession None authMode;
     data ← request isDeleteSession
               (DeleteSession
                  (apiInstanceUrl creds
                     +:+ agentConfig.getSessionEndpoint (template (sessionId session)))
                  ("Bearer " +:+ accessToken creds))
               (deletions outside);
     revalidateTag_session ;;
     mret (Some data))
    endSessionCatch.

(** *** Message dispatcher *)

Definition sendStreamingMessageCatch (error : Thrown) : M string :=
  consoleError "Streaming message failed:" error ;;
  match error with
  | AxiosErr e =>
      if hasCode e "ECONNABORTED"
      then throw (PlainError "Request timeout: Agentforce is taking too long to respond")
      else if hasStatus e 401
      then throw (PlainError "Authentication expired: Please refresh and try again")
      else if hasStatus e 403
      then throw (PlainError "Access denied: You don't have permission to use this agent")
      else if hasStatus e 404
      then throw (PlainError "Session not found: Please refresh and try again")
      else if hasStatus e 429
      then throw (PlainError "Rate limit exceeded: Please wait a moment and try again")
      else if is5xx e
      then throw (PlainError
             "Agentforce service is temporarily unavailable. Please try again in a few moments")
      else throw (PlainError ("Failed to send message: " +:+ statusTextOrNetworkError e))
  | _ => throw error
  end.

(** The statements of [sendStreamingMessage] that follow its two checks. *)
Definition dispatchMessage (text : list N) (sequenceId : float)
    (agentId : option string) (authMode : AuthMode) : M string :=
  creds ← getCredentials authMode;
  session ← getSession agentId authMode;
  request isPostMessage
    (PostMessage
       (apiInstanceUrl creds
          +:+ agentConfig.getStreamingEndpoint (template (sessionId session)))
       ("Bearer " +:+ accessToken creds)
       sequenceId
       (trim text))
    (streams outside).

Definition sendStreamingMessage (text : list N) (sequenceId : float)
    (agentId : option string) (authMode : AuthMode) : M string :=
  tryCatch
    (if emptyText text
     then throw (PlainError "Message text cannot be empty")
     else if negativeNumber sequenceId
     then throw (PlainError "Invalid sequence ID")
     else dispatchMessage text sequenceId agentId authMode)
    sendStreamingMessageCatch.

End Agentforce.

(** ** Observations on the chronicle *)

(** What one attempt of session creation leaves in the chronicle: the POST
    itself, and the backoff delay. *)
Inductive Mark :=
| Attempted
| Waited (ms : Z).

Definition mark (e : Event) : option Mark :=
  match e with
  | CreateSession _ _ _ _ => Some Attempted
  | Sleep ms => Some (Waited ms)
  | _ => None
  end.

Fixpoint marks (chronicle : list Event) : list Mark :=
  match chronicle with
  | [] => []
  | e :: rest =>
      match mark e with
      | Some m => m :: marks rest
      | None => marks rest
      end
  end.

(** The requests that reach the network through axios. *)
Definition networkCalls (chronicle : list Event) : list Event :=
  List.filter (fun e => negb (isSleep e) && negb (isGetAuthorization e)) chronicle.

(** An answer from which the provider of the mode builds credentials. *)
Definition usableToken (answer : Settled TokenData) : bool :=
  match answer with
  | Fulfilled data => truthy (access_token data) && truthy (api_instance_url data)
  | Rejected _ => false
  end.

Definition usableAuthorization (answer : Settled AuthData) : bool :=
  match answer with
  | Fulfilled data => truthy (auth_accessToken data)
  | Rejected _ => false
  end.

(** The outside answers every credential request of the mode usably. *)
Definition credentialsResolve (outside : Outside) (mode : AuthMode) : Prop :=
  match mode with
  | direct => forall k, usableToken (oauth outside k) = true
  | applink => forall k, usableAuthorization (authorizations outside k) = true
  end.

(** An axios rejection carrying an HTTP response of the given class. *)
Definition axiosStatus (lo hi : Z) (reason : Thrown) : bool :=
  match reason with
  | AxiosErr e =>
      match response e with
      | Some r => (lo <=? status r) && (status r <? hi)
      | None => false
      end
  | _ => false
  end.

(** The event the POST of one attempt leaves, for the credentials and the
    target agent of that attempt. *)
Definition createSessionEvent (env : Env) (outside : Outside) (c : AuthCredentials)
    (target : option string) (w : World) : Event :=
  CreateSession
    (apiInstanceUrl c +:+ "/einstein/ai-agent/v1/agents/" +:+ template target +:+ "/sessions")
    ("Bearer " +:+ accessToken c)
    (randomUUID outside (List.length (chronicle w)))
    ("https://" +:+ agentConfig.baseUrl env +:+ "/").

(** How many session POSTs a list of marks holds. *)
Fixpoint attempts (ms : list Mark) : nat :=
  match ms with
  | [] => O
  | Attempted :: rest => S (attempts rest)
  | Waited _ :: rest => attempts rest
  end.

(** A rejection the retry policy is meant to retry: any but an HTTP
    response of the 4xx class. *)
Definition retryable (reason : Thrown) : bool := negb (axiosStatus 400 500 reason).

(** The DELETE of [endSession], for the credentials and the session it was
    built from. *)
Definition deleteSessionEvent (c : AuthCredentials) (session : SessionData) : Event :=
  DeleteSession
    (apiInstanceUrl c +:+ agentConfig.getSessionEndpoint (template (sessionId session)))
    ("Bearer " +:+ accessToken c).

(** The token request of the direct provider. *)
Definition tokenRequestEvent (env : Env) : Event :=
  TokenRequest (agentConfig.getAuthEndpoint env) (agentConfig.clientId env)
               (agentConfig.clientSecret env).

(** ** Further observations *)

(** The time a list of marks spends waiting, in milliseconds. *)
Fixpoint totalWait (ms : list Mark) : Z :=
  match ms with
  | [] => 0
  | Waited d :: rest => d + totalWait rest
  | Attempted :: rest => totalWait rest
  end.

(** [axios.isAxiosError(error)]. *)
Definition isAxiosError (error : Thrown) : bool :=
  match error with AxiosErr _ => true | _ => false end.

(** Every cached session carries a session id. *)
Definition sessionsIdentified (w : World) : Prop :=
  forall k s, sessionCache w !! k = Some s -> truthy (sessionId s) = true.

(** From [w] to [w'] the cached credentials [c] were kept and the token
    endpoint was not asked. *)
Definition tokenKept (c : AuthCredentials) (w w' : World) : Prop :=
  tokenCache w' = Some c
  /\ issued isTokenRequest (chronicle w') = issued isTokenRequest (chronicle w).


(** ** Helpers of the diagnostic route handlers *)







(** [token.split('.')]. *)
Fixpoint splitDots (s : string) : list string :=
  match s with
  | EmptyString => [EmptyString]
  | String c rest =>
      if Ascii.eqb c "."%char
      then EmptyString :: splitDots rest
      else match splitDots rest with
           | first :: others => String c first :: others
           | [] => [String c EmptyString]
           end
  end.

Fixpoint hasDot (s : string) : bool :=
  match s with
  | EmptyString => false
  | String c rest => Ascii.eqb c "."%char || hasDot rest
  end.

(** [decodeJwt] of the agentforce-test route.  [parsePayload] stands for
    [JSON.parse(Buffer.from(part, 'base64').toString('utf8'))], with [None]
    where that throws (the [catch] returns [null]) or yields [null]. *)
Definition decodeJwt {Claims : Type} (parsePayload : string -> option Claims)
    (token : string) : option Claims :=
  let parts := splitDots token in
  if negb (Nat.eqb (List.length parts) 3)
  then None
  else parsePayload (nth 1 parts EmptyString).

(** ** Scenarios

    Concrete configurations, answers of the outside and worlds on which the
    operations are run below. *)
Module Scenario.

Definition env : Env :=
  mkEnv "https://acme.my.salesforce.com" "3MVG9key" "s3cret" (Some "0XxAGENT") "org_jwt"
    production.

Definition envWithoutAgent : Env :=
  mkEnv "https://acme.my.salesforce.com" "3MVG9key" "s3cret" None "org_jwt" production.

(** An axios rejection that carries an HTTP response with this status. *)
Definition httpFailure (s : Z) : Thrown :=
  AxiosErr (mkAxiosError "Request failed" None (Some (mkResponse s ""))).

Definition credentials : AuthCredentials :=
  mkCredentials "tok" "https://instance.example".

Definition session : SessionData := mkSessionData (Some "sid-1") "".

(** An outside that hands out credentials and a stream, and answers the
    session POSTs and the DELETEs as given. *)
Definition outsideWith (sessions : nat -> Settled SessionData)
    (deletions : nat -> Settled string) : Outside :=
  mkOutside
    (fun _ => Fulfilled (mkTokenData (Some "tok") (Some "https://instance.example")))
    (fun _ => Fulfilled (mkAuthData (Some "jwt") (Some "https://acme.my.salesforce.com")))
    sessions deletions
    (fun _ => Fulfilled "stream")
    (fun _ => "5f0c7a1e-0000-4000-8000-000000000000").

Definition always {A} (answer : Settled A) : nat -> Settled A := fun _ => answer.

(** Everything succeeds. *)
Definition friendly : Outside :=
  outsideWith (always (Fulfilled session)) (always (Fulfilled "")).

(** The first two session POSTs are answered 503, the later ones succeed. *)
Definition twice503 : Outside :=
  outsideWith
    (fun k => match k with
              | O | S O => Rejected (httpFailure 503)
              | _ => Fulfilled session
              end)
    (always (Fulfilled "")).

(** Every session POST is answered with the given status. *)
Definition sessionsAnswer (s : Z) : Outside :=
  outsideWith (always (Rejected (httpFailure s))) (always (Fulfilled "")).

(** Every DELETE is answered with the given status. *)
Definition deletionsAnswer (s : Z) : Outside :=
  outsideWith (always (Fulfilled session)) (always (Rejected (httpFailure s))).

(** The token endpoint answers without an access token. *)
Definition tokenless : Outside :=
  mkOutside
    (fun _ => Fulfilled (mkTokenData None (Some "https://instance.example")))
    (fun _ => Fulfilled (mkAuthData (Some "jwt") None))
    (always (Fulfilled session)) (always (Fulfilled ""))
    (fun _ => Fulfilled "stream")
    (fun _ => "5f0c7a1e-0000-4000-8000-000000000000").

(** A fresh process, and one that holds credentials and a session. *)
Definition cold : World := mkWorld None ∅ [] [].

Definition warm : World :=
  mkWorld (Some credentials) {[ (None, direct) := session ]} [] [].

(** "hi", and a space followed by a tab. *)
Definition hi : list N := [104; 105]%N.
Definition blank : list N := [32; 9]%N.

End Scenario.

(** Further answers of the outside. *)
Module Trouble.

(** The token endpoint answers every request with the given status. *)
Definition tokenAnswers (s : Z) : Outside :=
  mkOutside
    (fun _ => Rejected (Scenario.httpFailure s))
    (fun _ => Fulfilled (mkAuthData (Some "jwt") None))
    (fun _ => Fulfilled Scenario.session) (fun _ => Fulfilled "")
    (fun _ => Fulfilled "stream")
    (fun _ => "5f0c7a1e-0000-4000-8000-000000000000").

(** The broker hands out authorizations without an access token. *)
Definition brokerWithoutToken : Outside :=
  mkOutside
    (fun _ => Fulfilled (mkTokenData (Some "tok") (Some "https://instance.example")))
    (fun _ => Fulfilled (mkAuthData None (Some "https://acme.my.salesforce.com")))
    (fun _ => Fulfilled Scenario.session) (fun _ => Fulfilled "")
    (fun _ => Fulfilled "stream")
    (fun _ => "5f0c7a1e-0000-4000-8000-000000000000").

(** Every message POST is answered with the given status. *)
Definition streamsAnswer (s : Z) : Outside :=
  mkOutside
    (fun _ => Fulfilled (mkTokenData (Some "tok") (Some "https://instance.example")))
    (fun _ => Fulfilled (mkAuthData (Some "jwt") None))
    (fun _ => Fulfilled Scenario.session) (fun _ => Fulfilled "")
    (fun _ => Rejected (Scenario.httpFailure s))
    (fun _ => "5f0c7a1e-0000-4000-8000-000000000000").

(** The configuration of [Scenario.env] under [next dev]. *)
Definition envInDevelopment : Env :=
  mkEnv "https://acme.my.salesforce.com" "3MVG9key" "s3cret" (Some "0XxAGENT") "org_jwt"
    development.

(** An operation that fails the same way every time. *)
Definition alwaysFails (e : Thrown) : M unit := throw e.

End Trouble.

(** * Properties *)

Ltac unfold_monad :=
  unfold mbind, M_bind, mret, M_ret, tryCatch, throw, consoleError, consoleWarn,
    request, await, sleep, revalidateTag_session, crypto_randomUUID in *.

(** ** Trimming *)

Lemma trimStart_blank s : forallb isWhiteSpace s = true -> trimStart s = [].
Proof.
  induction s as [|c s IH]; simpl; [reflexivity|].
  intros H. apply andb_prop in H as [Hc Hs]. rewrite Hc. auto.
Qed.

Lemma trimStart_head s :
  trimStart s = [] \/ exists c r, trimStart s = c :: r /\ isWhiteSpace c = false.
Proof.
  induction s as [|c s IH]; simpl; [left; reflexivity|].
  destruct (isWhiteSpace c) eqn:Hc; [exact IH|].
  right. exists c, s. split; [reflexivity|assumption].
Qed.

Lemma trimStart_nil s : trimStart s = [] -> forallb isWhiteSpace s = true.
Proof.
  induction s as [|c s IH]; simpl; [reflexivity|].
  destruct (isWhiteSpace c) eqn:Hc; [auto|discriminate].
Qed.

Lemma forallb_rev_true (f : N -> bool) s : forallb f (rev s) = true -> forallb f s = true.
Proof.
  rewrite !forallb_forall. intros H x Hx. apply H, in_rev. rewrite rev_involutive. exact Hx.
Qed.

Lemma emptyText_blank text : emptyText text = true <-> forallb isWhiteSpace text = true.
Proof.
  unfold emptyText, trim, trimEnd. split.
  - destruct text as [|c t]; [reflexivity|]. rewrite orb_false_l.
    intros H. apply Nat.eqb_eq in H. rewrite length_rev in H.
    apply length_zero_iff_nil in H. apply trimStart_nil, forallb_rev_true in H.
    destruct (trimStart_head (c :: t)) as [E | (c' & r & E & Hc')].
    + apply trimStart_nil. exact E.
    + rewrite E in H. simpl in H. rewrite Hc' in H. discriminate.
  - intros H. rewrite (trimStart_blank _ H). simpl. apply orb_true_r.
Qed.

(** ** The retry utility *)

Lemma retryOperation_three {T} (operation : M T) (delayMs : Z) (w : World) :
  (forall w0 e w1, operation w0 = (Throw e, w1) -> clientError e = false) ->
  retryOperation operation 2 delayMs w =
    match operation w with
    | (Ok v, w1) => (Ok v, w1)
    | (Throw _, w1) =>
        match operation (emit (Sleep (delayMs * 1)) w1) with
        | (Ok v, w2) => (Ok v, w2)
        | (Throw _, w2) => operation (emit (Sleep (delayMs * 2)) w2)
        end
    end.
Proof.
  intros Hop. unfold retryOperation. simpl. unfold sleep. simpl.
  change (Z.of_nat 0 + 1) with 1. change (Z.of_nat 1 + 1) with 2.
  destruct (operation w) as [[v|e1] w1] eqn:E1; [reflexivity|].
  rewrite (Hop _ _ _ E1).
  destruct (operation (emit (Sleep (delayMs * 1)) w1)) as [[v|e2] w2] eqn:E2; [reflexivity|].
  rewrite (Hop _ _ _ E2). simpl.
  destruct (operation (emit (Sleep (delayMs * 2)) w2)) as [[v|e3] w3] eqn:E3; [reflexivity|].
  rewrite (Hop _ _ _ E3). reflexivity.
Qed.

(** An operation that raises an axios error with a status below 500 is run
    once by the utility, which re-raises the error as it is. *)
Lemma retryOperation_clientError {T} (operation : M T) n delayMs w e w1 :
  operation w = (Throw e, w1) -> clientError e = true ->
  retryOperation operation n delayMs w = (Throw e, w1).
Proof.
  intros E He. unfold retryOperation. destruct n; simpl; rewrite E, He; reflexivity.
Qed.

Section AgentforceFacts.
Context (env : Env) (outside : Outside).

Lemma newSessionCatch_throws r w :
  exists e, newSessionCatch r w
            = (Throw e, logLine (LogError "Session creation failed:" r) w)
            /\ clientError e = false.
Proof.
  unfold newSessionCatch. unfold_monad.
  destruct r as [e|msg|v]; simpl; [|eexists; split; reflexivity..].
  repeat match goal with |- context [if ?b then _ else _] => destruct b end;
    eexists; split; reflexivity.
Qed.

(** No attempt of [newSession] ever raises an error the guard of the
    retry utility recognises. *)
Lemma newSessionAttempt_not_clientError a mode w e w1 :
  newSessionAttempt env outside a mode w = (Throw e, w1) -> clientError e = false.
Proof.
  unfold newSessionAttempt, tryCatch.
  match goal with |- context [match ?b w with _ => _ end] => destruct (b w) as [[v|r] w'] end.
  - discriminate.
  - destruct (newSessionCatch_throws r w') as (e' & E & He). rewrite E.
    intros [= <- <-]. exact He.
Qed.

Lemma newSession_three a mode w :
  newSession env outside a mode w =
    match newSessionAttempt env outside a mode w with
    | (Ok v, w1) => (Ok v, w1)
    | (Throw _, w1) =>
        match newSessionAttempt env outside a mode (emit (Sleep 1500) w1) with
        | (Ok v, w2) => (Ok v, w2)
        | (Throw _, w2) => newSessionAttempt env outside a mode (emit (Sleep 3000) w2)
        end
    end.
Proof.
  unfold newSession. rewrite retryOperation_three.
  - reflexivity.
  - intros w0 e w1. apply newSessionAttempt_not_clientError.
Qed.

(** *** Credential resolution *)

Ltac split_ifs :=
  repeat match goal with
         | |- context [if ?b then _ else _] => destruct b eqn:?
         | |- context [match ?x with AxiosErr _ => _ | _ => _ end] => destruct x eqn:?
         end.

(** Whatever its outcome, credential resolution leaves the session cache
    alone and adds neither a session request nor a delay. *)
Lemma getCredentials_frame mode w r w1 :
  getCredentials env outside mode w = (r, w1) ->
  sessionCache w1 = sessionCache w
  /\ marks (chronicle w1) = marks (chronicle w)
  /\ issued isCreateSession (chronicle w1) = issued isCreateSession (chronicle w)
  /\ issued isDeleteSession (chronicle w1) = issued isDeleteSession (chronicle w)
  /\ issued isPostMessage (chronicle w1) = issued isPostMessage (chronicle w).
Proof.
  destruct mode; simpl.
  - unfold getToken. destruct (tokenCache w) as [c|].
    + intros [= <- <-]. repeat split.
    + unfold requestToken, getTokenCatch. unfold_monad.
      destruct (oauth outside _) as [data|reason]; simpl; split_ifs; simpl;
        intros [= <- <-]; repeat split.
  - unfold getTokenFromAppLink, getTokenFromAppLinkCatch. unfold_monad.
    destruct (authorizations outside _) as [data|reason]; simpl; split_ifs; simpl;
      intros [= <- <-]; repeat split.
Qed.

Lemma getCredentials_resolves mode w :
  credentialsResolve outside mode ->
  exists c w1, getCredentials env outside mode w = (Ok c, w1) /\ console w1 = console w.
Proof.
  destruct mode; simpl; intros Hgood.
  - unfold getToken. destruct (tokenCache w) as [c|]; [eauto|].
    unfold requestToken. unfold_monad.
    specialize (Hgood (issued isTokenRequest (chronicle w))).
    destruct (oauth outside _) as [data|reason]; simpl in *; [|discriminate].
    apply andb_prop in Hgood as [-> ->]. simpl. eauto.
  - unfold getTokenFromAppLink. unfold_monad.
    specialize (Hgood (issued isGetAuthorization (chronicle w))).
    destruct (authorizations outside _) as [data|reason]; simpl in *; [|discriminate].
    rewrite Hgood. simpl. eauto.
Qed.

(** Both providers turn every failure into a plain [Error]. *)
Lemma getCredentials_throws mode w e w1 :
  getCredentials env outside mode w = (Throw e, w1) -> exists msg, e = PlainError msg.
Proof.
  destruct mode; simpl.
  - unfold getToken. destruct (tokenCache w) as [c|]; [discriminate|].
    unfold requestToken, getTokenCatch, acrossCache. unfold_monad.
    destruct (NODE_ENV env);
      destruct (oauth outside _) as [data|reason]; simpl; split_ifs; simpl;
      intros [= <- <-]; eauto.
  - unfold getTokenFromAppLink, getTokenFromAppLinkCatch. unfold_monad.
    destruct (authorizations outside _) as [data|reason]; simpl; split_ifs; simpl;
      intros [= <- <-]; eauto.
Qed.

(** *** One attempt of session creation *)

Lemma newSessionAttempt_credentials a mode w c w1 :
  getCredentials env outside mode w = (Ok c, w1) ->
  newSessionAttempt env outside a mode w =
    let target := orElse a (agentConfig.agentId env) in
    if truthy target
    then
      let w2 := emit (createSessionEvent env outside c target w1) w1 in
      match sessions outside (issued isCreateSession (chronicle w1)) with
      | Fulfilled data =>
          if truthy (sessionId data)
          then (Ok data, w2)
          else newSessionCatch
                 (PlainError "Invalid session response: missing session ID") w2
      | Rejected reason => newSessionCatch reason w2
      end
    else newSessionCatch
           (PlainError "No agent ID provided and no default agent configured") w1.
Proof.
  intros Hc. unfold newSessionAttempt, createSessionEvent. unfold_monad. rewrite Hc. simpl.
  destruct (truthy (orElse a (agentConfig.agentId env))); simpl; [|reflexivity].
  destruct (sessions outside _) as [data|reason]; simpl; [|reflexivity].
  destruct (truthy (sessionId data)); reflexivity.
Qed.

Lemma newSessionAttempt_no_credentials a mode w e w1 :
  getCredentials env outside mode w = (Throw e, w1) ->
  newSessionAttempt env outside a mode w =
    (Throw e, logLine (LogError "Session creation failed:" e) w1).
Proof.
  intros Hc. destruct (getCredentials_throws _ _ _ _ Hc) as [msg ->].
  unfold newSessionAttempt. unfold_monad. rewrite Hc. reflexivity.
Qed.

Lemma issued_attempts l : issued isCreateSession l = attempts (marks l).
Proof.
  unfold issued. induction l as [|e l IH]; [reflexivity|].
  destruct e; simpl; rewrite <- ?IH; reflexivity.
Qed.

Lemma newSession_chain a mode w e1 w1 e2 w2 r w3 :
  newSessionAttempt env outside a mode w = (Throw e1, w1) ->
  newSessionAttempt env outside a mode (emit (Sleep 1500) w1) = (Throw e2, w2) ->
  newSessionAttempt env outside a mode (emit (Sleep 3000) w2) = (r, w3) ->
  newSession env outside a mode w = (r, w3).
Proof.
  intros H1 H2 H3. rewrite newSession_three, H1, H2, H3. reflexivity.
Qed.

(** An attempt whose POST is rejected: the catch clause's error, one more
    POST in the chronicle, one more line on the console. *)
Lemma attempt_rejected a mode w reason :
  credentialsResolve outside mode ->
  truthy (orElse a (agentConfig.agentId env)) = true ->
  sessions outside (attempts (marks (chronicle w))) = Rejected reason ->
  exists e w',
    newSessionAttempt env outside a mode w = (Throw e, w')
    /\ (forall w0, fst (newSessionCatch reason w0) = Throw e)
    /\ marks (chronicle w') = Attempted :: marks (chronicle w)
    /\ console w' = LogError "Session creation failed:" reason :: console w
    /\ sessionCache w' = sessionCache w.
Proof.
  intros Hgood Hid Hrej.
  destruct (getCredentials_resolves mode w Hgood) as (c & w1 & Hc & Hlog).
  destruct (getCredentials_frame _ _ _ _ Hc) as (Hs & Hm & Hi & _).
  rewrite (newSessionAttempt_credentials _ _ _ _ _ Hc). simpl. rewrite Hid.
  rewrite Hi, issued_attempts, Hrej.
  destruct (newSessionCatch_throws reason (emit (createSessionEvent env outside c
             (orElse a (agentConfig.agentId env)) w1) w1)) as (e & E & _).
  exists e. eexists. split; [exact E|]. simpl. rewrite Hm, Hlog, Hs. repeat split.
  intros w0. destruct (newSessionCatch_throws reason w0) as (e0 & E0 & _).
  rewrite E0. simpl. f_equal.
  unfold newSessionCatch in E, E0. unfold_monad. simpl in E, E0.
  destruct reason as [x|msg|v]; simpl in E, E0;
    [|congruence..].
  repeat match type of E with context [if ?b then _ else _] => destruct b end; congruence.
Qed.

Lemma attempt_fulfilled a mode w data :
  credentialsResolve outside mode ->
  truthy (orElse a (agentConfig.agentId env)) = true ->
  sessions outside (attempts (marks (chronicle w))) = Fulfilled data ->
  truthy (sessionId data) = true ->
  exists w',
    newSessionAttempt env outside a mode w = (Ok data, w')
    /\ marks (chronicle w') = Attempted :: marks (chronicle w)
    /\ console w' = console w
    /\ sessionCache w' = sessionCache w.
Proof.
  intros Hgood Hid Hful Hsid.
  destruct (getCredentials_resolves mode w Hgood) as (c & w1 & Hc & Hlog).
  destruct (getCredentials_frame _ _ _ _ Hc) as (Hs & Hm & Hi & _).
  rewrite (newSessionAttempt_credentials _ _ _ _ _ Hc). simpl. rewrite Hid.
  rewrite Hi, issued_attempts, Hful, Hsid.
  eexists. split; [reflexivity|]. simpl. rewrite Hm, Hlog, Hs. repeat split.
Qed.

Lemma attempt_without_agent a mode w :
  credentialsResolve outside mode ->
  truthy (orElse a (agentConfig.agentId env)) = false ->
  exists w',
    newSessionAttempt env outside a mode w
    = (Throw (PlainError "No agent ID provided and no default agent configured"), w')
    /\ marks (chronicle w') = marks (chronicle w)
    /\ console w'
       = LogError "Session creation failed:"
           (PlainError "No agent ID provided and no default agent configured")
         :: console w.
Proof.
  intros Hgood Hid.
  destruct (getCredentials_resolves mode w Hgood) as (c & w1 & Hc & Hlog).
  destruct (getCredentials_frame _ _ _ _ Hc) as (Hs & Hm & Hi & _).
  rewrite (newSessionAttempt_credentials _ _ _ _ _ Hc). simpl. rewrite Hid.
  eexists. split; [reflexivity|]. simpl. rewrite Hm, Hlog. split; reflexivity.
Qed.

End AgentforceFacts.

(** ** The retry policy around session creation *)

Section RetryPolicy.
Context (env : Env) (outside : Outside).

Lemma axiosStatus_4xx_clientError reason :
  axiosStatus 400 500 reason = true -> clientError reason = true.
Proof.
  destruct reason as [e| |]; simpl; try discriminate.
  destruct (response e) as [r|]; [|discriminate].
  intros H. apply andb_prop in H as [Hlo Hhi]. rewrite Hhi, andb_true_r.
  apply Z.leb_le in Hlo. apply negb_true_iff, Z.eqb_neq. lia.
Qed.

Lemma axiosStatus_5xx_retryable reason :
  axiosStatus 500 600 reason = true -> retryable reason = true.
Proof.
  unfold retryable. destruct reason as [e| |]; simpl; try discriminate.
  destruct (response e) as [r|]; [|discriminate].
  intros H. apply andb_prop in H as [Hlo _]. apply Z.leb_le in Hlo.
  apply negb_true_iff, andb_false_iff. right. apply Z.ltb_ge. lia.
Qed.

(** Three rejected POSTs in a row: three attempts, the two backoff delays,
    and the error made of the third rejection. *)
Lemma newSession_three_rejections a mode w r1 r2 r3 :
  credentialsResolve outside mode ->
  truthy (orElse a (agentConfig.agentId env)) = true ->
  sessions outside (issued isCreateSession (chronicle w)) = Rejected r1 ->
  sessions outside (S (issued isCreateSession (chronicle w))) = Rejected r2 ->
  sessions outside (S (S (issued isCreateSession (chronicle w)))) = Rejected r3 ->
  exists e w',
    newSession env outside a mode w = (Throw e, w')
    /\ (forall w0, fst (newSessionCatch r3 w0) = Throw e)
    /\ marks (chronicle w')
       = [Attempted; Waited 3000; Attempted; Waited 1500; Attempted] ++ marks (chronicle w)
    /\ console w'
       = [LogError "Session creation failed:" r3;
          LogError "Session creation failed:" r2;
          LogError "Session creation failed:" r1] ++ console w.
Proof.
  intros Hgood Hid H1 H2 H3. rewrite issued_attempts in H1, H2, H3.
  destruct (attempt_rejected env outside a mode w r1 Hgood Hid H1)
    as (e1 & w1 & A1 & _ & M1 & L1 & _).
  destruct (attempt_rejected env outside a mode (emit (Sleep 1500) w1) r2 Hgood Hid)
    as (e2 & w2 & A2 & _ & M2 & L2 & _).
  { simpl. rewrite M1. exact H2. }
  destruct (attempt_rejected env outside a mode (emit (Sleep 3000) w2) r3 Hgood Hid)
    as (e3 & w3 & A3 & C3 & M3 & L3 & _).
  { simpl. rewrite M2. simpl. rewrite M1. exact H3. }
  exists e3, w3. split; [exact (newSession_chain env outside _ _ _ _ _ _ _ _ _ A1 A2 A3)|].
  split; [exact C3|]. simpl in *. rewrite M3, M2, M1, L3, L2, L1. split; reflexivity.
Qed.

(** C4: [newSession] makes at most three attempts, waiting 1500 ms * 1 after
    the first failure and 1500 ms * 2 after the second, and its outcome is
    that of the third attempt when the first two fail: the third attempt's
    value if it succeeds, its error if it fails.  In particular, when
    credentials resolve and a target agent id is present: two session POSTs
    answered with 5xx responses followed by one answered with a session make
    the call return that session after exactly three POSTs and the delays
    1500 ms and 3000 ms; and three POSTs rejected with retryable failures
    make the error of the last rejection propagate. *)
Theorem newSession_backoff_schedule a mode w :
  (forall e1 w1 e2 w2 r w3,
      newSessionAttempt env outside a mode w = (Throw e1, w1) ->
      newSessionAttempt env outside a mode (emit (Sleep (1500 * 1)) w1) = (Throw e2, w2) ->
      newSessionAttempt env outside a mode (emit (Sleep (1500 * 2)) w2) = (r, w3) ->
      newSession env outside a mode w = (r, w3))
  /\ (credentialsResolve outside mode ->
      truthy (orElse a (agentConfig.agentId env)) = true ->
      (forall r1 r2 data,
          sessions outside (issued isCreateSession (chronicle w)) = Rejected r1 ->
          axiosStatus 500 600 r1 = true ->
          sessions outside (S (issued isCreateSession (chronicle w))) = Rejected r2 ->
          axiosStatus 500 600 r2 = true ->
          sessions outside (S (S (issued isCreateSession (chronicle w)))) = Fulfilled data ->
          truthy (sessionId data) = true ->
          exists w',
            newSession env outside a mode w = (Ok data, w')
            /\ marks (chronicle w')
               = [Attempted; Waited (1500 * 2); Attempted; Waited (1500 * 1); Attempted]
                 ++ marks (chronicle w))
      /\ (forall r1 r2 r3,
             sessions outside (issued isCreateSession (chronicle w)) = Rejected r1 ->
             retryable r1 = true ->
             sessions outside (S (issued isCreateSession (chronicle w))) = Rejected r2 ->
             retryable r2 = true ->
             sessions outside (S (S (issued isCreateSession (chronicle w)))) = Rejected r3 ->
             retryable r3 = true ->
             exists e3 w',
               newSession env outside a mode w = (Throw e3, w')
               /\ (forall w0, fst (newSessionCatch r3 w0) = Throw e3)
               /\ marks (chronicle w')
                  = [Attempted; Waited (1500 * 2); Attempted; Waited (1500 * 1); Attempted]
                    ++ marks (chronicle w))).
Proof.
  split; [exact (newSession_chain env outside a mode w)|].
  intros Hgood Hid. split.
  - intros r1 r2 data H1 _ H2 _ H3 Hsid. rewrite issued_attempts in H1, H2, H3.
    destruct (attempt_rejected env outside a mode w r1 Hgood Hid H1)
      as (e1 & w1 & A1 & _ & M1 & _).
    destruct (attempt_rejected env outside a mode (emit (Sleep 1500) w1) r2 Hgood Hid)
      as (e2 & w2 & A2 & _ & M2 & _).
    { simpl. rewrite M1. exact H2. }
    destruct (attempt_fulfilled env outside a mode (emit (Sleep 3000) w2) data Hgood Hid)
      as (w3 & A3 & M3 & _).
    { simpl. rewrite M2. simpl. rewrite M1. exact H3. }
    { exact Hsid. }
    exists w3. split; [exact (newSession_chain env outside _ _ _ _ _ _ _ _ _ A1 A2 A3)|].
    simpl in *. rewrite M3, M2, M1. reflexivity.
  - intros r1 r2 r3 H1 _ H2 _ H3 _.
    destruct (newSession_three_rejections a mode w r1 r2 r3 Hgood Hid H1 H2 H3)
      as (e & w' & E & C & M & _).
    exists e, w'. auto.
Qed.

(** C1 (the code departs from it): when the three session POSTs of a
    [newSession] call are answered with 4xx responses, each of which the
    guard of the retry utility would recognise, the call nevertheless makes
    three attempts and waits 1500 ms and 3000 ms between them, because the
    attempt re-raises every axios error as a plain [Error]. *)
Theorem newSession_retries_4xx a mode w r1 r2 r3 :
  credentialsResolve outside mode ->
  truthy (orElse a (agentConfig.agentId env)) = true ->
  sessions outside (issued isCreateSession (chronicle w)) = Rejected r1 ->
  axiosStatus 400 500 r1 = true ->
  sessions outside (S (issued isCreateSession (chronicle w))) = Rejected r2 ->
  axiosStatus 400 500 r2 = true ->
  sessions outside (S (S (issued isCreateSession (chronicle w)))) = Rejected r3 ->
  axiosStatus 400 500 r3 = true ->
  clientError r1 = true
  /\ exists e w',
       newSession env outside a mode w = (Throw e, w')
       /\ (forall w0, fst (newSessionCatch r3 w0) = Throw e)
       /\ marks (chronicle w')
          = [Attempted; Waited 3000; Attempted; Waited 1500; Attempted]
            ++ marks (chronicle w).
Proof.
  intros Hgood Hid H1 S1 H2 _ H3 _. split; [exact (axiosStatus_4xx_clientError r1 S1)|].
  destruct (newSession_three_rejections a mode w r1 r2 r3 Hgood Hid H1 H2 H3)
    as (e & w' & E & C & M & _).
  exists e, w'. auto.
Qed.

(** C3 (as amended): when neither an explicit agent id nor a configured
    default is present and credentials resolve, [newSession] fails with
    the configuration error without any session POST, but only after the
    retry policy has run the attempt three times, 1500 ms and 3000 ms
    apart. *)
Theorem newSession_missing_agent_is_retried a mode w :
  credentialsResolve outside mode ->
  truthy (orElse a (agentConfig.agentId env)) = false ->
  exists w',
    newSession env outside a mode w
    = (Throw (PlainError "No agent ID provided and no default agent configured"), w')
    /\ marks (chronicle w') = [Waited 3000; Waited 1500] ++ marks (chronicle w)
    /\ console w'
       = repeat (LogError "Session creation failed:"
                   (PlainError "No agent ID provided and no default agent configured")) 3
         ++ console w.
Proof.
  intros Hgood Hid.
  destruct (attempt_without_agent env outside a mode w Hgood Hid) as (w1 & A1 & M1 & L1).
  destruct (attempt_without_agent env outside a mode (emit (Sleep 1500) w1) Hgood Hid)
    as (w2 & A2 & M2 & L2).
  destruct (attempt_without_agent env outside a mode (emit (Sleep 3000) w2) Hgood Hid)
    as (w3 & A3 & M3 & L3).
  exists w3. split; [exact (newSession_chain env outside _ _ _ _ _ _ _ _ _ A1 A2 A3)|].
  simpl in *. rewrite M3, M2, M1, L3, L2, L1. split; reflexivity.
Qed.

End RetryPolicy.

(** ** Sessions: resolution and teardown *)

Section Sessions.
Context (env : Env) (outside : Outside).

Lemma attempt_ok a mode w s w2 :
  newSessionAttempt env outside a mode w = (Ok s, w2) ->
  exists c w1,
    getCredentials env outside mode w = (Ok c, w1)
    /\ w2 = emit (createSessionEvent env outside c (orElse a (agentConfig.agentId env)) w1) w1
    /\ truthy (sessionId s) = true.
Proof.
  destruct (getCredentials env outside mode w) as [[c|e] w1] eqn:Hc.
  - rewrite (newSessionAttempt_credentials _ _ _ _ _ _ _ Hc). simpl.
    destruct (truthy (orElse a (agentConfig.agentId env))).
    + destruct (sessions outside _) as [data|reason].
      * destruct (truthy (sessionId data)) eqn:Hsid.
        -- intros [= <- <-]. eauto.
        -- destruct (newSessionCatch_throws
                       (PlainError "Invalid session response: missing session ID")
                       (emit (createSessionEvent env outside c
                                (orElse a (agentConfig.agentId env)) w1) w1))
             as (e & -> & _).
           discriminate.
      * match goal with |- context [newSessionCatch ?r ?x] =>
          destruct (newSessionCatch_throws r x) as (e & -> & _) end.
        discriminate.
    + match goal with |- context [newSessionCatch ?r ?x] =>
        destruct (newSessionCatch_throws r x) as (e & -> & _) end.
      discriminate.
  - rewrite (newSessionAttempt_no_credentials _ _ _ _ _ _ _ Hc). discriminate.
Qed.

(** A [newSession] that resolves has just issued its session POST. *)
Lemma newSession_ok a mode w s w2 :
  newSession env outside a mode w = (Ok s, w2) ->
  exists c w1,
    chronicle w2
    = createSessionEvent env outside c (orElse a (agentConfig.agentId env)) w1 :: chronicle w1
    /\ truthy (sessionId s) = true.
Proof.
  rewrite newSession_three.
  destruct (newSessionAttempt env outside a mode w) as [[v|e1] w1] eqn:A1.
  - intros [= <- <-]. destruct (attempt_ok _ _ _ _ _ A1) as (c & w0 & _ & -> & Hs). eauto.
  - destruct (newSessionAttempt env outside a mode (emit (Sleep 1500) w1))
      as [[v|e2] w2'] eqn:A2.
    + intros [= <- <-]. destruct (attempt_ok _ _ _ _ _ A2) as (c & w0 & _ & -> & Hs). eauto.
    + intros A3. destruct (attempt_ok _ _ _ _ _ A3) as (c & w0 & _ & -> & Hs). eauto.
Qed.

Lemma getSession_cached a mode w s w2 :
  getSession env outside a mode w = (Ok s, w2) ->
  sessionCache w2 !! (a, mode) = Some s.
Proof.
  unfold getSession. destruct (sessionCache w !! (a, mode)) as [s0|] eqn:Hhit.
  - intros [= <- <-]. exact Hhit.
  - destruct (newSession env outside a mode w) as [[v|e] w1]; [|discriminate].
    intros [= <- <-]. simpl. apply lookup_insert_eq.
Qed.

Lemma getSession_hit a mode w s :
  sessionCache w !! (a, mode) = Some s ->
  getSession env outside a mode w = (Ok s, w).
Proof. intros H. unfold getSession. rewrite H. reflexivity. Qed.

Lemma getSession_miss a mode w :
  sessionCache w !! (a, mode) = None ->
  getSession env outside a mode w =
    match newSession env outside a mode w with
    | (Ok s, w1) => (Ok s, storeSession (a, mode) s w1)
    | (Throw e, w1) => (Throw (acrossCache (NODE_ENV env) e), w1)
    end.
Proof. intros H. unfold getSession. rewrite H. reflexivity. Qed.

Lemma endSessionCatch_returns reason w :
  exists w',
    endSessionCatch reason w = (Ok None, w')
    /\ sessionCache w' = sessionCache w
    /\ tokenCache w' = tokenCache w
    /\ chronicle w' = chronicle w.
Proof.
  unfold endSessionCatch. unfold_monad. destruct reason as [e| |]; simpl.
  - destruct (negb (hasStatus e 404)); simpl; eexists; repeat split.
  - eexists; repeat split.
  - eexists; repeat split.
Qed.

(** [endSession], statement by statement. *)
Lemma endSession_steps mode w :
  endSession env outside mode w =
    match getCredentials env outside mode w with
    | (Throw e, w1) => endSessionCatch e w1
    | (Ok c, w1) =>
        match getSession env outside None mode w1 with
        | (Throw e, w2) => endSessionCatch e w2
        | (Ok s, w2) =>
            match deletions outside (issued isDeleteSession (chronicle w2)) with
            | Fulfilled data =>
                (Ok (Some data), revalidateSessionTag (emit (deleteSessionEvent c s) w2))
            | Rejected reason => endSessionCatch reason (emit (deleteSessionEvent c s) w2)
            end
        end
    end.
Proof.
  unfold endSession, deleteSessionEvent. unfold_monad.
  destruct (getCredentials env outside mode w) as [[c|e] w1]; [|reflexivity].
  destruct (getSession env outside None mode w1) as [[s|e] w2]; [|reflexivity].
  destruct (deletions outside _) as [data|reason]; reflexivity.
Qed.

(** C9: [endSession] never raises.  Whatever credential resolution, session
    resolution and the DELETE do, it returns; and its result is [null]
    whenever one of the three fails, be it a DELETE answered 404. *)
Theorem endSession_never_throws mode w :
  exists r w',
    endSession env outside mode w = (Ok r, w')
    /\ (forall e w1, getCredentials env outside mode w = (Throw e, w1) -> r = None)
    /\ (forall c w1 e w2,
           getCredentials env outside mode w = (Ok c, w1) ->
           getSession env outside None mode w1 = (Throw e, w2) -> r = None)
    /\ (forall c w1 s w2 reason,
           getCredentials env outside mode w = (Ok c, w1) ->
           getSession env outside None mode w1 = (Ok s, w2) ->
           deletions outside (issued isDeleteSession (chronicle w2)) = Rejected reason ->
           r = None).
Proof.
  rewrite endSession_steps.
  destruct (getCredentials env outside mode w) as [[c|e] w1] eqn:Hc.
  - destruct (getSession env outside None mode w1) as [[s|e] w2] eqn:Hs.
    + destruct (deletions outside (issued isDeleteSession (chronicle w2)))
        as [data|reason] eqn:Hdel.
      * eexists _, _. split; [reflexivity|]. split; [discriminate|]. split.
        -- intros c0 w0 e w3 [= <- <-]. rewrite Hs. discriminate.
        -- intros c0 w0 s0 w3 reason [= <- <-]. rewrite Hs. intros [= <- <-].
           rewrite Hdel. discriminate.
      * destruct (endSessionCatch_returns reason (emit (deleteSessionEvent c s) w2))
          as (w' & -> & _).
        eexists _, _. split; [reflexivity|]. repeat split.
    + destruct (endSessionCatch_returns e w2) as (w' & -> & _).
      eexists _, _. split; [reflexivity|]. repeat split.
  - destruct (endSessionCatch_returns e w1) as (w' & -> & _).
    eexists _, _. split; [reflexivity|]. repeat split.
Qed.

(** C10: called with no session cached for its key, [endSession] creates
    one (credential resolution, then [newSession] with its session POST)
    and, once that has succeeded, issues the DELETE against the session
    just created. *)
Theorem endSession_creates_then_deletes mode w c w1 s w2 :
  sessionCache w !! (None, mode) = None ->
  getCredentials env outside mode w = (Ok c, w1) ->
  newSession env outside None mode w1 = (Ok s, w2) ->
  exists r w' c' w0,
    endSession env outside mode w = (Ok r, w')
    /\ getSession env outside None mode w1 = (Ok s, storeSession (None, mode) s w2)
    /\ chronicle w'
       = deleteSessionEvent c s
         :: createSessionEvent env outside c' (agentConfig.agentId env) w0
         :: chronicle w0.
Proof.
  intros Hmiss Hc Hnew.
  destruct (getCredentials_frame _ _ _ _ _ _ Hc) as (Hcache & _).
  assert (Hs : getSession env outside None mode w1
               = (Ok s, storeSession (None, mode) s w2)).
  { rewrite getSession_miss by (rewrite Hcache; exact Hmiss). rewrite Hnew. reflexivity. }
  destruct (newSession_ok _ _ _ _ _ Hnew) as (c' & w0 & Hchr & _). simpl in Hchr.
  rewrite endSession_steps, Hc, Hs.
  destruct (deletions outside _) as [data|reason].
  - eexists _, _, c', w0. split; [reflexivity|]. split; [reflexivity|].
    simpl. rewrite Hchr. reflexivity.
  - destruct (endSessionCatch_returns reason
                (emit (deleteSessionEvent c s) (storeSession (None, mode) s w2)))
      as (w' & -> & _ & _ & Hw').
    eexists _, _, c', w0. split; [reflexivity|]. split; [reflexivity|].
    rewrite Hw'. simpl. rewrite Hchr. reflexivity.
Qed.

(** C2 (as amended): once credentials and the session are resolved,
    [endSession] issues the DELETE; it invalidates the "session" tag only
    when the DELETE is fulfilled, after which every entry is gone; when the
    DELETE is rejected the entries stay, and the next resolution for the
    same key returns the cached session without creating a new one. *)
Theorem endSession_purges_after_fulfilled_delete mode w c w1 s w2 :
  getCredentials env outside mode w = (Ok c, w1) ->
  getSession env outside None mode w1 = (Ok s, w2) ->
  match deletions outside (issued isDeleteSession (chronicle w2)) with
  | Fulfilled data =>
      exists w',
        endSession env outside mode w = (Ok (Some data), w')
        /\ chronicle w' = deleteSessionEvent c s :: chronicle w2
        /\ sessionCache w' = ∅
        /\ forall a m,
             getSession env outside a m w' =
               match newSession env outside a m w' with
               | (Ok s', w'') => (Ok s', storeSession (a, m) s' w'')
               | (Throw e, w'') => (Throw (acrossCache (NODE_ENV env) e), w'')
               end
  | Rejected reason =>
      exists w',
        endSession env outside mode w = (Ok None, w')
        /\ chronicle w' = deleteSessionEvent c s :: chronicle w2
        /\ sessionCache w' = sessionCache w2
        /\ getSession env outside None mode w' = (Ok s, w')
  end.
Proof.
  intros Hc Hs. rewrite endSession_steps, Hc, Hs.
  destruct (deletions outside _) as [data|reason].
  - eexists. split; [reflexivity|]. simpl. split; [reflexivity|]. split; [reflexivity|].
    intros a m. apply getSession_miss. simpl. apply lookup_empty.
  - destruct (endSessionCatch_returns reason (emit (deleteSessionEvent c s) w2))
      as (w' & -> & Hcache & _ & Hchr).
    exists w'. split; [reflexivity|]. split; [exact Hchr|]. split; [exact Hcache|].
    apply getSession_hit. rewrite Hcache. simpl. exact (getSession_cached _ _ _ _ _ Hs).
Qed.

End Sessions.

(** ** Credential providers *)

Section Credentials.
Context (env : Env) (outside : Outside).

Lemma getToken_incomplete w data :
  tokenCache w = None ->
  oauth outside (issued isTokenRequest (chronicle w)) = Fulfilled data ->
  usableToken (Fulfilled data) = false ->
  requestToken env outside w
  = (Throw (PlainError "Authentication failed: Unable to connect to Salesforce"),
     logLine (LogError "Authentication failed:"
                (PlainError
                   "Invalid authentication response: missing access token or API instance URL"))
             (emit (tokenRequestEvent env) w))
  /\ getCredentials env outside direct w
     = (Throw (acrossCache (NODE_ENV env)
                 (PlainError "Authentication failed: Unable to connect to Salesforce")),
        logLine (LogError "Authentication failed:"
                   (PlainError
                      "Invalid authentication response: missing access token or API instance URL"))
                (emit (tokenRequestEvent env) w)).
Proof.
  intros Hcold Hans Hbad.
  assert (Hbody : requestToken env outside w
                  = (Throw (PlainError
                              "Authentication failed: Unable to connect to Salesforce"),
                     logLine (LogError "Authentication failed:"
                                (PlainError
                                   "Invalid authentication response: missing access token or API instance URL"))
                             (emit (tokenRequestEvent env) w))).
  { simpl in Hbad. unfold requestToken, getTokenCatch. unfold_monad. rewrite Hans. simpl.
    destruct (truthy (access_token data)), (truthy (api_instance_url data));
      try discriminate; reflexivity. }
  split; [exact Hbody|]. simpl. unfold getToken. rewrite Hcold, Hbody. reflexivity.
Qed.

(** C8 (the code departs from it on a production server): a direct-mode
    token response that lacks the access token or the API instance URL
    makes the body of [getToken] raise the authentication error
    "Authentication failed: Unable to connect to Salesforce" (not the raw
    "Invalid authentication response" error) after a single token request
    and with nothing cached.  That error has to cross the "use cache"
    boundary of [getToken]: credential resolution, and [newSession] whose
    three attempts each meet such a response, hand it to their caller in
    development, but on a production server the caller receives the error
    with its message omitted.  In neither case is a session POST issued. *)
Theorem getToken_incomplete_response_across_cache w data :
  tokenCache w = None ->
  oauth outside (issued isTokenRequest (chronicle w)) = Fulfilled data ->
  truthy (access_token data) = false \/ truthy (api_instance_url data) = false ->
  (exists w',
      requestToken env outside w
      = (Throw (PlainError "Authentication failed: Unable to connect to Salesforce"), w')
      /\ getCredentials env outside direct w
         = (Throw (acrossCache (NODE_ENV env)
                     (PlainError "Authentication failed: Unable to connect to Salesforce")),
            w')
      /\ chronicle w' = tokenRequestEvent env :: chronicle w
      /\ tokenCache w' = None)
  /\ (forall a d2 d3,
         oauth outside (S (issued isTokenRequest (chronicle w))) = Fulfilled d2 ->
         usableToken (Fulfilled d2) = false ->
         oauth outside (S (S (issued isTokenRequest (chronicle w)))) = Fulfilled d3 ->
         usableToken (Fulfilled d3) = false ->
         exists w',
           newSession env outside a direct w
           = (Throw (acrossCache (NODE_ENV env)
                       (PlainError "Authentication failed: Unable to connect to Salesforce")),
              w')
           /\ issued isTokenRequest (chronicle w') = (3 + issued isTokenRequest (chronicle w))%nat
           /\ issued isCreateSession (chronicle w') = issued isCreateSession (chronicle w))
  /\ (NODE_ENV env = development ->
      fst (getCredentials env outside direct w)
      = Throw (PlainError "Authentication failed: Unable to connect to Salesforce"))
  /\ (NODE_ENV env = production ->
      fst (getCredentials env outside direct w) = Throw (PlainError omittedMessage)).
Proof.
  intros Hcold Hans Hlack.
  assert (Hbad : usableToken (Fulfilled data) = false).
  { simpl. destruct Hlack as [-> | ->]; [reflexivity|apply andb_false_r]. }
  destruct (getToken_incomplete w data Hcold Hans Hbad) as [B1 G1].
  split; [|split; [|split]].
  - eexists. split; [exact B1|]. split; [exact G1|]. simpl. split; [reflexivity|exact Hcold].
  - intros a d2 d3 H2 B2 H3 B3.
    pose proof (newSessionAttempt_no_credentials env outside a direct _ _ _ G1) as A1.
    match type of A1 with _ = (_, ?x) => set (w1 := x) in * end.
    destruct (getToken_incomplete (emit (Sleep 1500) w1) d2 Hcold H2 B2) as [_ G2].
    pose proof (newSessionAttempt_no_credentials env outside a direct _ _ _ G2) as A2.
    match type of A2 with _ = (_, ?x) => set (w2 := x) in * end.
    destruct (getToken_incomplete (emit (Sleep 3000) w2) d3 Hcold H3 B3) as [_ G3].
    pose proof (newSessionAttempt_no_credentials env outside a direct _ _ _ G3) as A3.
    eexists. split; [exact (newSession_chain env outside _ _ _ _ _ _ _ _ _ A1 A2 A3)|].
    split; reflexivity.
  - intros Hdev. rewrite G1, Hdev. reflexivity.
  - intros Hprod. rewrite G1, Hprod. reflexivity.
Qed.

(** C6: in delegated mode the credentials carry the fixed base URL
    https://api.salesforce.com whatever domain URL the broker returns; in
    direct mode they carry the [api_instance_url] of the token response
    (or of the cached credentials); and the session POST, the message POST
    and the DELETE are addressed to the base URL of the credentials the
    operation resolved. *)
Theorem base_url_by_mode :
  (forall w token dom,
      authorizations outside (issued isGetAuthorization (chronicle w))
      = Fulfilled (mkAuthData (Some token) dom) ->
      token <> "" ->
      getCredentials env outside applink w
      = (Ok (mkCredentials token "https://api.salesforce.com"),
         emit (GetAuthorization (getJwtConnectionName env)) w))
  /\ (forall w token url,
         tokenCache w = None ->
         oauth outside (issued isTokenRequest (chronicle w))
         = Fulfilled (mkTokenData (Some token) (Some url)) ->
         token <> "" -> url <> "" ->
         getCredentials env outside direct w
         = (Ok (mkCredentials token url),
            storeToken (mkCredentials token url) (emit (tokenRequestEvent env) w)))
  /\ (forall w c, tokenCache w = Some c -> getCredentials env outside direct w = (Ok c, w))
  /\ (forall a mode w c w1,
         getCredentials env outside mode w = (Ok c, w1) ->
         truthy (orElse a (agentConfig.agentId env)) = true ->
         exists r w2,
           newSessionAttempt env outside a mode w = (r, w2)
           /\ chronicle w2
              = CreateSession
                  (apiInstanceUrl c +:+ "/einstein/ai-agent/v1/agents/"
                     +:+ template (orElse a (agentConfig.agentId env)) +:+ "/sessions")
                  ("Bearer " +:+ accessToken c)
                  (randomUUID outside (List.length (chronicle w1)))
                  ("https://" +:+ agentConfig.baseUrl env +:+ "/")
                :: chronicle w1)
  /\ (forall text sequenceId a mode w c w1 s w2,
         emptyText text = false ->
         negativeNumber sequenceId = false ->
         getCredentials env outside mode w = (Ok c, w1) ->
         getSession env outside a mode w1 = (Ok s, w2) ->
         exists r w3,
           sendStreamingMessage env outside text sequenceId a mode w = (r, w3)
           /\ chronicle w3
              = PostMessage
                  (apiInstanceUrl c +:+ "/einstein/ai-agent/v1/sessions/"
                     +:+ template (sessionId s) +:+ "/messages/stream")
                  ("Bearer " +:+ accessToken c) sequenceId (trim text)
                :: chronicle w2)
  /\ (forall mode w c w1 s w2,
         getCredentials env outside mode w = (Ok c, w1) ->
         getSession env outside None mode w1 = (Ok s, w2) ->
         exists r w3,
           endSession env outside mode w = (r, w3)
           /\ chronicle w3
              = DeleteSession
                  (apiInstanceUrl c +:+ "/einstein/ai-agent/v1/sessions/"
                     +:+ template (sessionId s))
                  ("Bearer " +:+ accessToken c)
                :: chronicle w2).
Proof.
  repeat apply conj.
  - intros w token dom Hans Hne. simpl. unfold getTokenFromAppLink. unfold_monad.
    rewrite Hans. simpl. apply String.eqb_neq in Hne. rewrite Hne. reflexivity.
  - intros w token url Hcold Hans Ht Hu. simpl. unfold getToken, requestToken.
    unfold_monad. rewrite Hcold, Hans. simpl.
    apply String.eqb_neq in Ht, Hu. rewrite Ht, Hu. reflexivity.
  - intros w c Hwarm. simpl. unfold getToken. rewrite Hwarm. reflexivity.
  - intros a mode w c w1 Hc Hid.
    rewrite (newSessionAttempt_credentials _ _ _ _ _ _ _ Hc). simpl. rewrite Hid.
    destruct (sessions outside _) as [data|reason].
    + destruct (truthy (sessionId data)).
      * eexists _, _. split; reflexivity.
      * match goal with |- context [newSessionCatch ?r ?x] =>
          destruct (newSessionCatch_throws r x) as (e & -> & _) end.
        eexists _, _. split; reflexivity.
    + match goal with |- context [newSessionCatch ?r ?x] =>
        destruct (newSessionCatch_throws r x) as (e & -> & _) end.
      eexists _, _. split; reflexivity.
  - intros text sequenceId a mode w c w1 s w2 Htext Hseq Hc Hs.
    unfold sendStreamingMessage, dispatchMessage, sendStreamingMessageCatch. unfold_monad.
    rewrite Htext, Hseq, Hc, Hs.
    destruct (streams outside _) as [data|reason]; simpl.
    + eexists _, _. split; reflexivity.
    + destruct reason as [e| |]; simpl;
        repeat match goal with |- context [if ?b then _ else _] => destruct b end;
        eexists _, _; split; reflexivity.
  - intros mode w c w1 s w2 Hc Hs. rewrite endSession_steps, Hc, Hs.
    destruct (deletions outside _) as [data|reason].
    + eexists _, _. split; reflexivity.
    + destruct (endSessionCatch_returns reason (emit (deleteSessionEvent c s) w2))
        as (w' & -> & _ & _ & Hchr).
      eexists _, _. split; [reflexivity|]. rewrite Hchr. reflexivity.
Qed.

End Credentials.

(** ** Message dispatcher *)

Section Dispatcher.
Context (env : Env) (outside : Outside).

Lemma not_negative_of_leb x : PrimFloat.leb 0 x = true -> negativeNumber x = false.
Proof.
  unfold negativeNumber. rewrite leb_spec, ltb_spec.
  change (Prim2SF 0) with (S754_zero false).
  destruct (Prim2SF x) as [sx|sx| |sx m e]; try destruct sx;
    unfold SFleb, SFltb; simpl; congruence.
Qed.

(** C5: a text that is empty or all white space, or a negative sequence
    id, makes [sendStreamingMessage] fail with the validation error itself,
    before any credential resolution, session resolution or request: the
    chronicle and both caches are as they were. *)
Theorem sendStreamingMessage_validates_first text sequenceId a mode w :
  forallb isWhiteSpace text = true \/ negativeNumber sequenceId = true ->
  exists msg w',
    sendStreamingMessage env outside text sequenceId a mode w
    = (Throw (PlainError msg), w')
    /\ (msg = "Message text cannot be empty" \/ msg = "Invalid sequence ID")
    /\ chronicle w' = chronicle w
    /\ tokenCache w' = tokenCache w
    /\ sessionCache w' = sessionCache w
    /\ console w' = LogError "Streaming message failed:" (PlainError msg) :: console w.
Proof.
  intros Hbad. unfold sendStreamingMessage, sendStreamingMessageCatch. unfold_monad.
  destruct (emptyText text) eqn:Hempty.
  - eexists _, _. split; [reflexivity|]. simpl. auto 10.
  - destruct Hbad as [Hblank | Hneg].
    + apply emptyText_blank in Hblank. congruence.
    + rewrite Hneg. eexists _, _. split; [reflexivity|]. simpl. auto 10.
Qed.

(** C7 (as amended): for a text that is not blank, the sequence check of
    [sendStreamingMessage] rejects exactly the negative numbers, before any
    request; a sequence id that is at least zero passes it whether or not
    it is an integer, and the call goes on to credential resolution. *)
Theorem sendStreamingMessage_sequence_check text sequenceId a mode w :
  forallb isWhiteSpace text = false ->
  (negativeNumber sequenceId = true ->
   exists w',
     sendStreamingMessage env outside text sequenceId a mode w
     = (Throw (PlainError "Invalid sequence ID"), w')
     /\ chronicle w' = chronicle w)
  /\ (PrimFloat.leb 0 sequenceId = true ->
      sendStreamingMessage env outside text sequenceId a mode w
      = tryCatch (dispatchMessage env outside text sequenceId a mode)
                 sendStreamingMessageCatch w).
Proof.
  intros Htext.
  assert (Hempty : emptyText text = false).
  { destruct (emptyText text) eqn:E; [|reflexivity].
    apply emptyText_blank in E. congruence. }
  unfold sendStreamingMessage. split.
  - intros Hneg. unfold sendStreamingMessageCatch. unfold_monad.
    rewrite Hempty, Hneg. eexists. split; reflexivity.
  - intros Hge. apply not_negative_of_leb in Hge. unfold tryCatch.
    rewrite Hempty, Hge. reflexivity.
Qed.

End Dispatcher.

(** ** The operations on the scenarios *)

Import Scenario.

(** Two 503 answers and then a session: three attempts, 1500 ms and 3000 ms
    apart; three 503 answers: the error of the last one. *)
Lemma newSession_backoff_schedule_witness :
  (exists w',
      newSession env twice503 None applink cold = (Ok session, w')
      /\ marks (chronicle w') = [Attempted; Waited 3000; Attempted; Waited 1500; Attempted])
  /\ (exists e3 w',
         newSession env (sessionsAnswer 503) None applink cold = (Throw e3, w')
         /\ (forall w0, fst (newSessionCatch (httpFailure 503) w0) = Throw e3)
         /\ marks (chronicle w') = [Attempted; Waited 3000; Attempted; Waited 1500; Attempted]).
Proof.
  split.
  - apply (proj1 (proj2 (newSession_backoff_schedule env twice503 None applink cold)
                    (fun _ => eq_refl) eq_refl)
             (httpFailure 503) (httpFailure 503) session); reflexivity.
  - apply (proj2 (proj2 (newSession_backoff_schedule env (sessionsAnswer 503) None applink cold)
                    (fun _ => eq_refl) eq_refl)
             (httpFailure 503) (httpFailure 503) (httpFailure 503)); reflexivity.
Defined.

(** Three 401 answers: the guard of the retry utility would recognise each,
    and still there are three attempts. *)
Lemma newSession_retries_4xx_witness :
  clientError (httpFailure 401) = true
  /\ exists e w',
       newSession env (sessionsAnswer 401) None direct cold = (Throw e, w')
       /\ (forall w0, fst (newSessionCatch (httpFailure 401) w0) = Throw e)
       /\ marks (chronicle w') = [Attempted; Waited 3000; Attempted; Waited 1500; Attempted].
Proof.
  apply (newSession_retries_4xx env (sessionsAnswer 401) None direct cold
           (httpFailure 401) (httpFailure 401) (httpFailure 401));
    solve [reflexivity | intros k; reflexivity].
Defined.

(** The run itself: a 401 on session creation is answered by two retries. *)
Example newSession_401_three_posts :
  exists w',
    newSession env (sessionsAnswer 401) None direct cold
    = (Throw (PlainError "Session creation failed: Authentication expired"), w')
    /\ issued isCreateSession (chronicle w') = 3%nat
    /\ List.filter isSleep (chronicle w') = [Sleep 3000; Sleep 1500].
Proof. eexists. vm_compute. repeat split. Qed.

(** C3, refuted as stated: with no agent id at all the attempt is run three
    times, with both backoff delays, before the error reaches the caller. *)
Lemma newSession_missing_agent_three_attempts :
  exists w',
    newSession envWithoutAgent friendly None direct cold
    = (Throw (PlainError "No agent ID provided and no default agent configured"), w')
    /\ marks (chronicle w') = [Waited 3000; Waited 1500]
    /\ List.length (console w') = 3%nat.
Proof. eexists. vm_compute. repeat split. Qed.

Lemma newSession_missing_agent_is_retried_witness :
  exists w',
    newSession envWithoutAgent friendly None applink cold
    = (Throw (PlainError "No agent ID provided and no default agent configured"), w')
    /\ marks (chronicle w') = [Waited 3000; Waited 1500]
    /\ console w'
       = repeat (LogError "Session creation failed:"
                   (PlainError "No agent ID provided and no default agent configured")) 3.
Proof.
  apply (newSession_missing_agent_is_retried envWithoutAgent friendly None applink cold);
    solve [reflexivity | intros k; reflexivity].
Defined.

(** C2, refuted as stated: after a DELETE answered 500 the cached session is
    still there, and the next resolution returns it without any request. *)
Lemma endSession_failed_delete_keeps_session :
  fst (endSession env (deletionsAnswer 500) direct warm) = Ok None
  /\ chronicle (snd (endSession env (deletionsAnswer 500) direct warm))
     = [DeleteSession "https://instance.example/einstein/ai-agent/v1/sessions/sid-1"
          "Bearer tok"]
  /\ sessionCache (snd (endSession env (deletionsAnswer 500) direct warm)) !! (None, direct)
     = Some session
  /\ getSession env (deletionsAnswer 500) None direct
       (snd (endSession env (deletionsAnswer 500) direct warm))
     = (Ok session, snd (endSession env (deletionsAnswer 500) direct warm)).
Proof. vm_compute. repeat split. Qed.

Lemma endSession_purges_after_fulfilled_delete_witness :
  (exists w',
      endSession env friendly direct warm = (Ok (Some ""), w')
      /\ chronicle w' = deleteSessionEvent credentials session :: chronicle warm
      /\ sessionCache w' = ∅
      /\ forall a m,
           getSession env friendly a m w' =
             match newSession env friendly a m w' with
             | (Ok s', w'') => (Ok s', storeSession (a, m) s' w'')
             | (Throw e, w'') => (Throw (acrossCache (NODE_ENV env) e), w'')
             end)
  /\ (exists w',
         endSession env (deletionsAnswer 404) direct warm = (Ok None, w')
         /\ chronicle w' = deleteSessionEvent credentials session :: chronicle warm
         /\ sessionCache w' = sessionCache warm
         /\ getSession env (deletionsAnswer 404) None direct w' = (Ok session, w')).
Proof.
  split.
  - exact (endSession_purges_after_fulfilled_delete env friendly direct warm
             credentials warm session warm eq_refl eq_refl).
  - exact (endSession_purges_after_fulfilled_delete env (deletionsAnswer 404) direct warm
             credentials warm session warm eq_refl eq_refl).
Defined.

(** A DELETE answered 404: no exception, a [null] result. *)
Lemma endSession_never_throws_witness :
  exists r w',
    endSession env (deletionsAnswer 404) applink cold = (Ok r, w')
    /\ r = None.
Proof.
  destruct (endSession_never_throws env (deletionsAnswer 404) applink cold)
    as (r & w' & E & _ & _ & H).
  exists r, w'. split; [exact E|].
  eapply H; reflexivity.
Defined.

(** No session cached: credential resolution, a session POST, the DELETE. *)
Lemma endSession_creates_then_deletes_witness :
  exists r w' c' w0,
    endSession env friendly direct cold = (Ok r, w')
    /\ getSession env friendly None direct (snd (getCredentials env friendly direct cold))
       = (Ok session,
          storeSession (None, direct) session
            (snd (newSession env friendly None direct
                    (snd (getCredentials env friendly direct cold)))))
    /\ chronicle w'
       = deleteSessionEvent credentials session
         :: createSessionEvent env friendly c' (Some "0XxAGENT") w0
         :: chronicle w0.
Proof.
  exact (endSession_creates_then_deletes env friendly direct cold
           credentials (snd (getCredentials env friendly direct cold))
           session
           (snd (newSession env friendly None direct
                   (snd (getCredentials env friendly direct cold))))
           eq_refl eq_refl eq_refl).
Defined.

(** A blank text, and the sequence id -1: the validation error, no request. *)
Lemma sendStreamingMessage_validates_first_witness :
  (exists msg w',
      sendStreamingMessage env friendly blank 1%float None applink cold
      = (Throw (PlainError msg), w')
      /\ (msg = "Message text cannot be empty" \/ msg = "Invalid sequence ID")
      /\ chronicle w' = chronicle cold
      /\ tokenCache w' = tokenCache cold
      /\ sessionCache w' = sessionCache cold
      /\ console w' = LogError "Streaming message failed:" (PlainError msg) :: console cold)
  /\ (exists msg w',
         sendStreamingMessage env friendly hi (-1)%float None applink cold
         = (Throw (PlainError msg), w')
         /\ (msg = "Message text cannot be empty" \/ msg = "Invalid sequence ID")
         /\ chronicle w' = chronicle cold
         /\ tokenCache w' = tokenCache cold
         /\ sessionCache w' = sessionCache cold
         /\ console w' = LogError "Streaming message failed:" (PlainError msg) :: console cold).
Proof.
  split.
  - exact (sendStreamingMessage_validates_first env friendly blank 1%float None applink cold
             (or_introl eq_refl)).
  - exact (sendStreamingMessage_validates_first env friendly hi (-1)%float None applink cold
             (or_intror eq_refl)).
Defined.

(** C7, refuted as stated: 1.5 is no non-negative integer, and the message
    that carries it is posted. *)
Lemma sendStreamingMessage_accepts_fraction :
  nonNegativeInteger 1.5%float = false
  /\ exists w',
       sendStreamingMessage env friendly hi 1.5%float None applink cold = (Ok "stream", w')
       /\ networkCalls (chronicle w')
          = [PostMessage
               "https://api.salesforce.com/einstein/ai-agent/v1/sessions/sid-1/messages/stream"
               "Bearer jwt" 1.5%float hi;
             CreateSession
               "https://api.salesforce.com/einstein/ai-agent/v1/agents/0XxAGENT/sessions"
               "Bearer jwt" "5f0c7a1e-0000-4000-8000-000000000000"
               "https://acme.my.salesforce.com/"].
Proof. split; [vm_compute; reflexivity|]. eexists. vm_compute. split; reflexivity. Qed.

(** NaN is not below zero either, so the sequence check lets it through. *)
Example sendStreamingMessage_accepts_nan :
  negativeNumber nan = false
  /\ fst (sendStreamingMessage env friendly hi nan None applink cold) = Ok "stream".
Proof. split; vm_compute; reflexivity. Qed.

Lemma sendStreamingMessage_sequence_check_witness :
  (negativeNumber (-1)%float = true ->
   exists w',
     sendStreamingMessage env friendly hi (-1)%float None applink cold
     = (Throw (PlainError "Invalid sequence ID"), w')
     /\ chronicle w' = chronicle cold)
  /\ (PrimFloat.leb 0 1.5%float = true ->
      sendStreamingMessage env friendly hi 1.5%float None applink cold
      = tryCatch (dispatchMessage env friendly hi 1.5%float None applink)
                 sendStreamingMessageCatch cold).
Proof.
  split.
  - exact (proj1 (sendStreamingMessage_sequence_check env friendly hi (-1)%float None applink
                    cold eq_refl)).
  - exact (proj2 (sendStreamingMessage_sequence_check env friendly hi 1.5%float None applink
                    cold eq_refl)).
Defined.

(** A token response without [access_token], on a production server: the
    body of [getToken] raises the authentication error, its callers receive
    the error with the message omitted. *)
Lemma getToken_incomplete_response_across_cache_witness :
  (exists w',
      requestToken env tokenless cold
      = (Throw (PlainError "Authentication failed: Unable to connect to Salesforce"), w')
      /\ getCredentials env tokenless direct cold = (Throw (PlainError omittedMessage), w')
      /\ chronicle w' = tokenRequestEvent env :: chronicle cold
      /\ tokenCache w' = None)
  /\ exists w',
       newSession env tokenless None direct cold = (Throw (PlainError omittedMessage), w')
       /\ issued isTokenRequest (chronicle w') = 3%nat
       /\ issued isCreateSession (chronicle w') = 0%nat.
Proof.
  destruct (getToken_incomplete_response_across_cache env tokenless cold
              (mkTokenData None (Some "https://instance.example"))
              eq_refl eq_refl (or_introl eq_refl)) as (H1 & H2 & _).
  split; [exact H1|].
  exact (H2 None _ _ eq_refl eq_refl eq_refl eq_refl).
Defined.

(** The two modes side by side: same broker and token answers, different
    base URLs. *)
Lemma base_url_by_mode_witness :
  getCredentials env friendly applink cold
  = (Ok (mkCredentials "jwt" "https://api.salesforce.com"),
     emit (GetAuthorization "org_jwt") cold)
  /\ getCredentials env friendly direct cold
     = (Ok (mkCredentials "tok" "https://instance.example"),
        storeToken (mkCredentials "tok" "https://instance.example")
          (emit (tokenRequestEvent env) cold)).
Proof.
  destruct (base_url_by_mode env friendly) as (Happlink & Hdirect & _).
  split.
  - apply (Happlink cold "jwt" (Some "https://acme.my.salesforce.com")); [reflexivity|].
    discriminate.
  - apply (Hdirect cold "tok" "https://instance.example"); try reflexivity; discriminate.
Defined.

(** * Further properties of the operations *)

(** ** The retry utility, for any attempt budget *)

Lemma retryFrom_sleeps {T} (operation : M T) (delayMs : Z) :
  (forall w r w', operation w = (r, w') ->
                  List.filter isSleep (chronicle w') = List.filter isSleep (chronicle w)) ->
  forall remaining attempt w r w',
    retryFrom operation delayMs remaining attempt w = (r, w') ->
    exists k,
      (k <= remaining)%nat
      /\ List.filter isSleep (chronicle w')
         = map (fun i => Sleep (delayMs * Z.of_nat i)) (rev (seq (S attempt) k))
           ++ List.filter isSleep (chronicle w)
      /\ (k = remaining
          \/ match r with Ok _ => True | Throw e => clientError e = true end).
Proof.
  intros Hquiet. induction remaining as [|remaining IH]; intros attempt w r w' Hrun.
  - simpl in Hrun. destruct (operation w) as [[v|e] w1] eqn:E.
    + injection Hrun as <- <-. exists O. rewrite (Hquiet _ _ _ E). auto.
    + exists O. destruct (clientError e); injection Hrun as <- <-;
        rewrite (Hquiet _ _ _ E); auto.
  - simpl in Hrun. destruct (operation w) as [[v|e] w1] eqn:E.
    + injection Hrun as <- <-. exists O. rewrite (Hquiet _ _ _ E).
      split; [lia|]. split; [reflexivity|]. right. exact I.
    + destruct (clientError e) eqn:He.
      * injection Hrun as <- <-. exists O. rewrite (Hquiet _ _ _ E).
        split; [lia|]. split; [reflexivity|]. right. exact He.
      * apply IH in Hrun as (k & Hk & Hsleeps & Hlast). exists (S k).
        split; [lia|]. split.
        -- rewrite Hsleeps. simpl List.filter. rewrite (Hquiet _ _ _ E).
           change (seq (S attempt) (S k)) with (S attempt :: seq (S (S attempt)) k).
           simpl rev. rewrite map_app, <- app_assoc. simpl.
           replace (Z.of_nat attempt + 1) with (Z.of_nat (S attempt)) by lia. reflexivity.
        -- destruct Hlast as [-> | Hlast]; auto.
Qed.

(** X1: linear backoff for any budget.  Around an operation that does not
    itself sleep, [retryOperation] waits k times for some k no larger than
    [maxRetries], the i-th wait lasting [delayMs * i]; and it stops before
    the budget is used up only on a success or on an axios error with a
    status below 500. *)
Theorem retryOperation_linear_backoff {T} (operation : M T) (maxRetries : nat)
    (delayMs : Z) (w : World) (r : Result T) (w' : World) :
  (forall w0 r0 w1, operation w0 = (r0, w1) ->
                    List.filter isSleep (chronicle w1) = List.filter isSleep (chronicle w0)) ->
  retryOperation operation maxRetries delayMs w = (r, w') ->
  exists k,
    (k <= maxRetries)%nat
    /\ List.filter isSleep (chronicle w')
       = map (fun i => Sleep (delayMs * Z.of_nat i)) (rev (seq 1 k))
         ++ List.filter isSleep (chronicle w)
    /\ (k = maxRetries
        \/ match r with Ok _ => True | Throw e => clientError e = true end).
Proof.
  intros Hquiet Hrun. exact (retryFrom_sleeps operation delayMs Hquiet _ _ _ _ _ Hrun).
Qed.

Section Frames.
Context (env : Env) (outside : Outside).

Lemma newSessionCatch_plain r w :
  exists e,
    newSessionCatch r w = (Throw e, logLine (LogError "Session creation failed:" r) w)
    /\ isAxiosError e = false.
Proof.
  unfold newSessionCatch. unfold_monad.
  destruct r as [e|msg|v]; simpl; [|eexists; split; reflexivity..].
  repeat match goal with |- context [if ?b then _ else _] => destruct b end;
    eexists; split; reflexivity.
Qed.

Lemma acrossCache_not_axios runtime e :
  isAxiosError e = false -> isAxiosError (acrossCache runtime e) = false.
Proof. destruct runtime; simpl; auto. Qed.

(** With credentials cached, resolution in either mode keeps them and asks
    the token endpoint nothing. *)
Lemma getCredentials_warm mode w c r w1 :
  tokenCache w = Some c ->
  getCredentials env outside mode w = (r, w1) ->
  tokenCache w1 = Some c
  /\ issued isTokenRequest (chronicle w1) = issued isTokenRequest (chronicle w).
Proof.
  intros Hwarm. destruct mode; simpl.
  - unfold getToken. rewrite Hwarm. intros [= <- <-]. auto.
  - unfold getTokenFromAppLink, getTokenFromAppLinkCatch. unfold_monad.
    destruct (authorizations outside _) as [data|reason]; simpl;
      repeat match goal with
             | |- context [if ?b then _ else _] => destruct b
             | |- context [match ?x with AxiosErr _ => _ | _ => _ end] => destruct x
             end; simpl; intros [= <- <-]; auto.
Qed.

(** What one attempt may change. *)
Lemma attempt_frame a mode w r w' :
  newSessionAttempt env outside a mode w = (r, w') ->
  sessionCache w' = sessionCache w
  /\ (marks (chronicle w') = marks (chronicle w)
      \/ marks (chronicle w') = Attempted :: marks (chronicle w))
  /\ issued isDeleteSession (chronicle w') = issued isDeleteSession (chronicle w)
  /\ issued isPostMessage (chronicle w') = issued isPostMessage (chronicle w)
  /\ (forall e, r = Throw e -> isAxiosError e = false)
  /\ (forall c, tokenCache w = Some c ->
                tokenCache w' = Some c
                /\ issued isTokenRequest (chronicle w')
                   = issued isTokenRequest (chronicle w)).
Proof.
  destruct (getCredentials env outside mode w) as [[c|e] w1] eqn:Hc;
    destruct (getCredentials_frame env outside _ _ _ _ Hc) as (Hs & Hm & _ & Hd & Hp);
    pose proof (fun c0 H => getCredentials_warm mode w c0 _ _ H Hc) as Hwarm.
  1: rewrite (newSessionAttempt_credentials env outside _ _ _ _ _ Hc); simpl;
     destruct (truthy (orElse a (agentConfig.agentId env)));
       [destruct (sessions outside _) as [data|reason];
          [destruct (truthy (sessionId data))|]|].
  5: rewrite (newSessionAttempt_no_credentials env outside _ _ _ _ _ Hc);
     destruct (getCredentials_throws env outside _ _ _ _ Hc) as [msg ->].
  all: try match goal with |- context [newSessionCatch ?x ?y] =>
             destruct (newSessionCatch_plain x y) as (e' & -> & He) end.
  all: intros [= <- <-].
  all: split; [transitivity (sessionCache w1); [reflexivity|exact Hs]|].
  all: split;
         [first [ left; transitivity (marks (chronicle w1)); [reflexivity|exact Hm]
                | right; transitivity (Attempted :: marks (chronicle w1));
                  [reflexivity|rewrite Hm; reflexivity] ]|].
  all: split; [transitivity (issued isDeleteSession (chronicle w1)); [reflexivity|exact Hd]|].
  all: split; [transitivity (issued isPostMessage (chronicle w1)); [reflexivity|exact Hp]|].
  all: split; [intros e0 E0; first [discriminate E0 | injection E0 as <-; first [exact He|reflexivity]]|].
  all: intros c0 H0; destruct (Hwarm c0 H0) as [Ht Hn];
       split; [exact Ht|transitivity (issued isTokenRequest (chronicle w1)); [reflexivity|exact Hn]].
Qed.

Ltac marks_before l base :=
  lazymatch l with
  | base => constr:(@nil Mark)
  | ?x :: ?rest => let p := marks_before rest base in constr:(x :: p)
  end.

Ltac give_marks :=
  lazymatch goal with
  | |- exists ms, ?l = ms ++ ?base /\ _ =>
      let p := marks_before l base in
      exists p; split; [reflexivity|]; simpl; repeat split; lia
  end.

(** What a whole [newSession] may change. *)
Lemma newSession_frame a mode w r w' :
  newSession env outside a mode w = (r, w') ->
  sessionCache w' = sessionCache w
  /\ (exists ms,
        marks (chronicle w') = ms ++ marks (chronicle w)
        /\ (attempts ms <= 3)%nat
        /\ 0 <= totalWait ms <= 4500)
  /\ issued isDeleteSession (chronicle w') = issued isDeleteSession (chronicle w)
  /\ issued isPostMessage (chronicle w') = issued isPostMessage (chronicle w)
  /\ (forall e, r = Throw e -> isAxiosError e = false)
  /\ (forall c, tokenCache w = Some c ->
                tokenCache w' = Some c
                /\ issued isTokenRequest (chronicle w')
                   = issued isTokenRequest (chronicle w)).
Proof.
  rewrite newSession_three.
  destruct (newSessionAttempt env outside a mode w) as [[v1|e1] w1] eqn:A1;
    apply attempt_frame in A1 as (S1 & M1 & D1 & P1 & X1 & T1).
  { intros [= <- <-]. split; [exact S1|]. split.
    { destruct M1 as [M1|M1]; rewrite M1; give_marks. }
    auto. }
  destruct (newSessionAttempt env outside a mode (emit (Sleep 1500) w1))
    as [[v2|e2] w2] eqn:A2;
    apply attempt_frame in A2 as (S2 & M2 & D2 & P2 & X2 & T2).
  { intros [= <- <-]. split; [etransitivity; [exact S2|exact S1]|]. split.
    { destruct M1 as [M1|M1], M2 as [M2|M2]; rewrite M2; simpl; rewrite M1; give_marks. }
    split; [etransitivity; [exact D2|exact D1]|].
    split; [etransitivity; [exact P2|exact P1]|].
    split; [exact X2|].
    intros c0 H0. destruct (T1 c0 H0) as [Ht1 Hn1]. destruct (T2 c0 Ht1) as [Ht2 Hn2].
    split; [exact Ht2|etransitivity; [exact Hn2|exact Hn1]]. }
  intros A3. apply attempt_frame in A3 as (S3 & M3 & D3 & P3 & X3 & T3).
  split; [etransitivity; [exact S3|]; etransitivity; [exact S2|exact S1]|]. split.
  { destruct M1 as [M1|M1], M2 as [M2|M2], M3 as [M3|M3];
      rewrite M3; simpl; rewrite M2; simpl; rewrite M1; give_marks. }
  split; [etransitivity; [exact D3|]; etransitivity; [exact D2|exact D1]|].
  split; [etransitivity; [exact P3|]; etransitivity; [exact P2|exact P1]|].
  split; [exact X3|].
  intros c0 H0. destruct (T1 c0 H0) as [Ht1 Hn1]. destruct (T2 c0 Ht1) as [Ht2 Hn2].
  destruct (T3 c0 Ht2) as [Ht3 Hn3].
  split; [exact Ht3|etransitivity; [exact Hn3|]; etransitivity; [exact Hn2|exact Hn1]].
Qed.

(** What a session resolution may change. *)
Lemma getSession_frame a mode w r w' :
  getSession env outside a mode w = (r, w') ->
  (exists ms,
      marks (chronicle w') = ms ++ marks (chronicle w)
      /\ (attempts ms <= 3)%nat
      /\ 0 <= totalWait ms <= 4500)
  /\ issued isDeleteSession (chronicle w') = issued isDeleteSession (chronicle w)
  /\ issued isPostMessage (chronicle w') = issued isPostMessage (chronicle w)
  /\ (forall e, r = Throw e -> isAxiosError e = false /\ sessionCache w' = sessionCache w)
  /\ (forall k, k <> (a, mode) -> sessionCache w' !! k = sessionCache w !! k)
  /\ (forall s, r = Ok s -> sessionCache w' !! (a, mode) = Some s)
  /\ (sessionsIdentified w ->
      sessionsIdentified w' /\ forall s, r = Ok s -> truthy (sessionId s) = true)
  /\ (forall c, tokenCache w = Some c ->
                tokenCache w' = Some c
                /\ issued isTokenRequest (chronicle w')
                   = issued isTokenRequest (chronicle w)).
Proof.
  unfold getSession. destruct (sessionCache w !! (a, mode)) as [s0|] eqn:Hhit.
  - intros [= <- <-]. split; [exists []; simpl; repeat split; lia|].
    repeat split; try discriminate; auto.
    + intros s [= <-]. exact Hhit.
    + intros s [= <-]. exact (H _ _ Hhit).
  - destruct (newSession env outside a mode w) as [[s|e] w1] eqn:N;
      pose proof (newSession_frame _ _ _ _ _ N) as (S1 & M1 & D1 & P1 & X1 & T1);
      intros [= <- <-].
    + split; [exact M1|]. split; [exact D1|]. split; [exact P1|].
      split; [discriminate|].
      split; [intros k Hk; simpl; rewrite lookup_insert_ne by congruence;
              rewrite S1; reflexivity|].
      split; [intros s' [= <-]; simpl; apply lookup_insert_eq|].
      destruct (newSession_ok env outside _ _ _ _ _ N) as (c & w0 & _ & Hsid).
      split; [|exact T1].
      intros Hinv. split; [|intros s' [= <-]; exact Hsid].
      intros k s'. simpl. destruct (decide ((a, mode) = k)) as [<-|Hk].
      * rewrite lookup_insert_eq. intros [= <-]. exact Hsid.
      * rewrite lookup_insert_ne by exact Hk. rewrite S1. apply Hinv.
    + split; [exact M1|]. split; [exact D1|]. split; [exact P1|].
      split; [intros e0 E0; split;
              [injection E0 as <-; apply acrossCache_not_axios; exact (X1 e eq_refl)
              |exact S1]|].
      split; [intros k _; rewrite S1; reflexivity|].
      split; [discriminate|]. split; [|exact T1].
      intros Hinv. split; [|discriminate].
      intros k s'. rewrite S1. apply Hinv.
Qed.

Lemma sendStreamingMessageCatch_plain r w :
  exists e,
    sendStreamingMessageCatch r w
    = (Throw e, logLine (LogError "Streaming message failed:" r) w)
    /\ isAxiosError e = false.
Proof.
  unfold sendStreamingMessageCatch. unfold_monad.
  destruct r as [e|msg|v]; simpl; [|eexists; split; reflexivity..].
  repeat match goal with |- context [if ?b then _ else _] => destruct b end;
    eexists; split; reflexivity.
Qed.

(** [sendStreamingMessage], statement by statement. *)
Lemma sendStreamingMessage_steps text sequenceId a mode w :
  sendStreamingMessage env outside text sequenceId a mode w =
    if emptyText text
    then sendStreamingMessageCatch (PlainError "Message text cannot be empty") w
    else if negativeNumber sequenceId
    then sendStreamingMessageCatch (PlainError "Invalid sequence ID") w
    else
      match getCredentials env outside mode w with
      | (Throw e, w1) => sendStreamingMessageCatch e w1
      | (Ok c, w1) =>
          match getSession env outside a mode w1 with
          | (Throw e, w2) => sendStreamingMessageCatch e w2
          | (Ok s, w2) =>
              let post :=
                PostMessage
                  (apiInstanceUrl c
                     +:+ agentConfig.getStreamingEndpoint (template (sessionId s)))
                  ("Bearer " +:+ accessToken c) sequenceId (trim text) in
              match streams outside (issued isPostMessage (chronicle w2)) with
              | Fulfilled data => (Ok data, emit post w2)
              | Rejected reason => sendStreamingMessageCatch reason (emit post w2)
              end
          end
      end.
Proof.
  unfold sendStreamingMessage, dispatchMessage. unfold_monad.
  destruct (emptyText text); [reflexivity|].
  destruct (negativeNumber sequenceId); [reflexivity|].
  destruct (getCredentials env outside mode w) as [[c|e] w1]; [|reflexivity].
  destruct (getSession env outside a mode w1) as [[s|e] w2]; [|reflexivity].
  destruct (streams outside _) as [data|reason]; reflexivity.
Qed.

End Frames.

(** ** Budgets, caches and errors of the exported operations *)

Section Budgets.
Context (env : Env) (outside : Outside).

Lemma endSession_frame mode w r w' :
  endSession env outside mode w = (r, w') ->
  (exists ms,
      marks (chronicle w') = ms ++ marks (chronicle w)
      /\ (attempts ms <= 3)%nat
      /\ 0 <= totalWait ms <= 4500)
  /\ (issued isDeleteSession (chronicle w') <= S (issued isDeleteSession (chronicle w)))%nat
  /\ issued isPostMessage (chronicle w') = issued isPostMessage (chronicle w)
  /\ (sessionsIdentified w -> sessionsIdentified w')
  /\ (forall c, tokenCache w = Some c ->
                tokenCache w' = Some c
                /\ issued isTokenRequest (chronicle w')
                   = issued isTokenRequest (chronicle w))
  /\ (forall c w1 e w2,
         getCredentials env outside mode w = (Ok c, w1) ->
         getSession env outside None mode w1 = (Throw e, w2) ->
         issued isDeleteSession (chronicle w') = issued isDeleteSession (chronicle w)).
Proof.
  rewrite endSession_steps.
  destruct (getCredentials env outside mode w) as [[c|e] w1] eqn:Hc;
    destruct (getCredentials_frame env outside _ _ _ _ Hc) as (Hs & Hm & _ & Hd & Hp);
    pose proof (fun c0 H => getCredentials_warm env outside mode w c0 _ _ H Hc) as Hwarm.
  2: { destruct (endSessionCatch_returns e w1) as (w0 & -> & S0 & T0 & C0).
       intros [= <- <-]. rewrite C0.
       split; [exists []; rewrite Hm; simpl; repeat split; lia|].
       split; [rewrite Hd; lia|]. split; [exact Hp|].
       split; [intros Hinv k s; rewrite S0, Hs; apply Hinv|].
       split; [intros c0 H0; rewrite T0; exact (Hwarm c0 H0)|]. discriminate. }
  destruct (getSession env outside None mode w1) as [[s|e] w2] eqn:Hg;
    destruct (getSession_frame env outside _ _ _ _ _ Hg)
      as ((ms & M2 & B2) & D2 & P2 & X2 & _ & _ & I2 & T2).
  2: { destruct (endSessionCatch_returns e w2) as (w0 & -> & S0 & T0 & C0).
       intros [= <- <-]. rewrite C0.
       split; [exists ms; rewrite M2, Hm; auto|].
       split; [rewrite D2, Hd; lia|]. split; [rewrite P2; exact Hp|].
       split; [intros Hinv k s0; rewrite S0; apply I2; intros k' s'; rewrite Hs; apply Hinv|].
       split; [intros c0 H0; rewrite T0; destruct (Hwarm c0 H0) as [Ht Hn];
               destruct (T2 c0 Ht) as [Ht2 Hn2]; split; [exact Ht2|congruence]|].
       intros c0 w0' e0 w3 _ _. rewrite D2. exact Hd. }
  assert (Hmarks : exists ms0,
             marks (chronicle (emit (deleteSessionEvent c s) w2)) = ms0 ++ marks (chronicle w)
             /\ (attempts ms0 <= 3)%nat /\ 0 <= totalWait ms0 <= 4500).
  { exists ms. simpl. rewrite M2, Hm. auto. }
  assert (Hdel : (issued isDeleteSession (chronicle (emit (deleteSessionEvent c s) w2))
                  <= S (issued isDeleteSession (chronicle w)))%nat).
  { change (S (issued isDeleteSession (chronicle w2))
            <= S (issued isDeleteSession (chronicle w)))%nat. rewrite D2, Hd. lia. }
  assert (Hpost : issued isPostMessage (chronicle (emit (deleteSessionEvent c s) w2))
                  = issued isPostMessage (chronicle w)).
  { change (issued isPostMessage (chronicle w2) = issued isPostMessage (chronicle w)).
    rewrite P2. exact Hp. }
  assert (Htok : forall c0, tokenCache w = Some c0 ->
                   tokenCache w2 = Some c0
                   /\ issued isTokenRequest (chronicle (emit (deleteSessionEvent c s) w2))
                      = issued isTokenRequest (chronicle w)).
  { intros c0 H0. destruct (Hwarm c0 H0) as [Ht Hn]. destruct (T2 c0 Ht) as [Ht2 Hn2].
    split; [exact Ht2|].
    change (issued isTokenRequest (chronicle w2) = issued isTokenRequest (chronicle w)).
    congruence. }
  destruct (deletions outside _) as [data|reason].
  - intros [= <- <-]. split; [exact Hmarks|]. split; [exact Hdel|]. split; [exact Hpost|].
    split; [intros _ k s0; simpl; rewrite lookup_empty; discriminate|].
    split; [exact Htok|]. intros c0 w0 e0 w3 [= <- <-]. rewrite Hg. discriminate.
  - destruct (endSessionCatch_returns reason (emit (deleteSessionEvent c s) w2))
      as (w0 & -> & S0 & T0 & C0).
    intros [= <- <-]. rewrite C0. split; [exact Hmarks|]. split; [exact Hdel|].
    split; [exact Hpost|].
    split; [intros Hinv k s0; rewrite S0; apply I2; intros k' s'; rewrite Hs; apply Hinv|].
    split; [intros c0 H0; rewrite T0; exact (Htok c0 H0)|].
    intros c0 w0' e0 w3 [= <- <-]. rewrite Hg. discriminate.
Qed.

Lemma sendStreamingMessage_frame text sequenceId a mode w r w' :
  sendStreamingMessage env outside text sequenceId a mode w = (r, w') ->
  (exists ms,
      marks (chronicle w') = ms ++ marks (chronicle w)
      /\ (attempts ms <= 3)%nat
      /\ 0 <= totalWait ms <= 4500)
  /\ issued isDeleteSession (chronicle w') = issued isDeleteSession (chronicle w)
  /\ (issued isPostMessage (chronicle w') <= S (issued isPostMessage (chronicle w)))%nat
  /\ (forall e, r = Throw e -> isAxiosError e = false)
  /\ (sessionsIdentified w -> sessionsIdentified w')
  /\ (forall c, tokenCache w = Some c ->
                tokenCache w' = Some c
                /\ issued isTokenRequest (chronicle w')
                   = issued isTokenRequest (chronicle w)).
Proof.
  rewrite sendStreamingMessage_steps.
  assert (Hnone : forall reason wa e wb,
             sendStreamingMessageCatch reason wa = (Throw e, wb) ->
             isAxiosError e = false
             /\ wb = logLine (LogError "Streaming message failed:" reason) wa).
  { intros reason wa e wb H.
    destruct (sendStreamingMessageCatch_plain reason wa) as (e' & E & He).
    rewrite E in H. injection H as <- <-. auto. }
  assert (Hthrows : forall reason wa, exists e,
             sendStreamingMessageCatch reason wa
             = (Throw e, logLine (LogError "Streaming message failed:" reason) wa)
             /\ isAxiosError e = false)
    by exact sendStreamingMessageCatch_plain.
  assert (Hstay : forall reason,
             sendStreamingMessageCatch reason w = (r, w') ->
             (exists ms, marks (chronicle w') = ms ++ marks (chronicle w)
                         /\ (attempts ms <= 3)%nat /\ 0 <= totalWait ms <= 4500)
             /\ issued isDeleteSession (chronicle w') = issued isDeleteSession (chronicle w)
             /\ (issued isPostMessage (chronicle w')
                 <= S (issued isPostMessage (chronicle w)))%nat
             /\ (forall e, r = Throw e -> isAxiosError e = false)
             /\ (sessionsIdentified w -> sessionsIdentified w')
             /\ (forall c, tokenCache w = Some c ->
                           tokenCache w' = Some c
                           /\ issued isTokenRequest (chronicle w')
                              = issued isTokenRequest (chronicle w))).
  { intros reason. destruct (Hthrows reason w) as (e & -> & He). intros [= <- <-].
    split; [exists []; simpl; repeat split; lia|]. simpl.
    split; [reflexivity|]. split; [lia|].
    split; [intros e0 [= <-]; exact He|]. split; [auto|]. auto. }
  destruct (emptyText text); [apply Hstay|].
  destruct (negativeNumber sequenceId); [apply Hstay|].
  destruct (getCredentials env outside mode w) as [[c|e] w1] eqn:Hc;
    destruct (getCredentials_frame env outside _ _ _ _ Hc) as (Hs & Hm & _ & Hd & Hp);
    pose proof (fun c0 H => getCredentials_warm env outside mode w c0 _ _ H Hc) as Hwarm.
  2: { destruct (Hthrows e w1) as (e' & -> & He). intros [= <- <-].
       cbn [chronicle logLine emit sessionCache tokenCache].
       split; [exists []; rewrite Hm; simpl; repeat split; lia|].
       split; [exact Hd|]. split; [rewrite Hp; lia|].
       split; [intros e0 [= <-]; exact He|].
       split; [intros Hinv k s H0; apply (Hinv k s); rewrite <- Hs; exact H0|]. exact Hwarm. }
  destruct (getSession env outside a mode w1) as [[s|e] w2] eqn:Hg;
    destruct (getSession_frame env outside _ _ _ _ _ Hg)
      as ((ms & M2 & B2) & D2 & P2 & X2 & _ & _ & I2 & T2).
  2: { destruct (Hthrows e w2) as (e' & -> & He). intros [= <- <-].
       cbn [chronicle logLine emit sessionCache tokenCache].
       split; [exists ms; rewrite M2, Hm; auto|].
       split; [rewrite D2; exact Hd|]. split; [rewrite P2, Hp; lia|].
       split; [intros e0 [= <-]; exact He|].
       split; [intros Hinv; apply I2; intros k' s' H0; apply (Hinv k' s');
               rewrite <- Hs; exact H0|].
       intros c0 H0. destruct (Hwarm c0 H0) as [Ht Hn]. destruct (T2 c0 Ht) as [Ht2 Hn2].
       split; [exact Ht2|congruence]. }
  cbv zeta.
  match goal with |- context [emit ?ev w2] => set (post := ev) end.
  assert (Hcommon :
            (exists ms0, marks (chronicle (emit post w2)) = ms0 ++ marks (chronicle w)
                         /\ (attempts ms0 <= 3)%nat /\ 0 <= totalWait ms0 <= 4500)
            /\ issued isDeleteSession (chronicle (emit post w2))
               = issued isDeleteSession (chronicle w)
            /\ (issued isPostMessage (chronicle (emit post w2))
                <= S (issued isPostMessage (chronicle w)))%nat
            /\ (sessionsIdentified w -> sessionsIdentified (emit post w2))
            /\ (forall c0, tokenCache w = Some c0 ->
                           tokenCache (emit post w2) = Some c0
                           /\ issued isTokenRequest (chronicle (emit post w2))
                              = issued isTokenRequest (chronicle w))).
  { split; [exists ms; simpl; rewrite M2, Hm; auto|].
    split; [change (issued isDeleteSession (chronicle w2)
                    = issued isDeleteSession (chronicle w)); congruence|].
    split; [change (S (issued isPostMessage (chronicle w2))
                    <= S (issued isPostMessage (chronicle w)))%nat; rewrite P2, Hp; lia|].
    split; [intros Hinv; apply I2; intros k' s' H0; apply (Hinv k' s');
            rewrite <- Hs; exact H0|].
    intros c0 H0. destruct (Hwarm c0 H0) as [Ht Hn]. destruct (T2 c0 Ht) as [Ht2 Hn2].
    split; [exact Ht2|].
    change (issued isTokenRequest (chronicle w2) = issued isTokenRequest (chronicle w)).
    congruence. }
  destruct Hcommon as (C1 & C2 & C3 & C4 & C5).
  destruct (streams outside _) as [data|reason].
  - intros [= <- <-]. repeat (split; [assumption || discriminate|]). exact C5.
  - destruct (Hthrows reason (emit post w2)) as (e' & -> & He). intros [= <- <-].
    split; [exact C1|]. split; [exact C2|]. split; [exact C3|].
    split; [intros e0 [= <-]; exact He|]. split; [exact C4|]. exact C5.
Qed.

End Budgets.

Section Guarantees.
Context (env : Env) (outside : Outside).

Lemma prefix_append p m : String.prefix p (p +:+ m) = true.
Proof.
  induction p as [|c p IH]; simpl.
  - destruct m; reflexivity.
  - destruct (ascii_dec c c); [exact IH|congruence].
Qed.

(** X2: whatever the outside answers, one [newSession] issues at most three
    session POSTs, waits at most 4500 ms in total, and leaves the session
    cache as it found it. *)
Theorem newSession_budget a mode w :
  exists ms,
    marks (chronicle (snd (newSession env outside a mode w))) = ms ++ marks (chronicle w)
    /\ (attempts ms <= 3)%nat
    /\ 0 <= totalWait ms <= 4500
    /\ sessionCache (snd (newSession env outside a mode w)) = sessionCache w.
Proof.
  destruct (newSession env outside a mode w) as [r w'] eqn:E.
  destruct (newSession_frame env outside _ _ _ _ _ E) as (S1 & (ms & M & A & B) & _).
  exists ms. simpl. auto.
Qed.

(** X3: once direct-mode credentials are cached, no operation drops them or
    asks the token endpoint again. *)
Theorem cached_token_is_reused c w :
  tokenCache w = Some c ->
  (forall a mode, tokenKept c w (snd (newSession env outside a mode w)))
  /\ (forall a mode, tokenKept c w (snd (getSession env outside a mode w)))
  /\ (forall mode, tokenKept c w (snd (endSession env outside mode w)))
  /\ (forall text sequenceId a mode,
         tokenKept c w (snd (sendStreamingMessage env outside text sequenceId a mode w))).
Proof.
  intros Hwarm. unfold tokenKept. repeat apply conj.
  - intros a mode. destruct (newSession env outside a mode w) as [r w'] eqn:E.
    destruct (newSession_frame env outside _ _ _ _ _ E) as (_ & _ & _ & _ & _ & T).
    exact (T c Hwarm).
  - intros a mode. destruct (getSession env outside a mode w) as [r w'] eqn:E.
    destruct (getSession_frame env outside _ _ _ _ _ E) as (_ & _ & _ & _ & _ & _ & _ & T).
    exact (T c Hwarm).
  - intros mode. destruct (endSession env outside mode w) as [r w'] eqn:E.
    destruct (endSession_frame env outside _ _ _ _ E) as (_ & _ & _ & _ & T & _).
    exact (T c Hwarm).
  - intros text sequenceId a mode.
    destruct (sendStreamingMessage env outside text sequenceId a mode w) as [r w'] eqn:E.
    destruct (sendStreamingMessage_frame env outside _ _ _ _ _ _ _ E)
      as (_ & _ & _ & _ & _ & T).
    exact (T c Hwarm).
Qed.

(** X4: a direct-mode resolution that fails had nothing cached, made exactly
    one token request, and caches nothing. *)
Theorem getToken_failure_is_not_cached w e w1 :
  getCredentials env outside direct w = (Throw e, w1) ->
  tokenCache w = None
  /\ tokenCache w1 = None
  /\ chronicle w1 = tokenRequestEvent env :: chronicle w
  /\ sessionCache w1 = sessionCache w.
Proof.
  simpl. unfold getToken. destruct (tokenCache w) as [c|] eqn:Hcold; [discriminate|].
  unfold requestToken, getTokenCatch. unfold_monad.
  destruct (oauth outside _) as [data|reason]; simpl.
  - destruct (negb (truthy (access_token data)) || negb (truthy (api_instance_url data)));
      simpl; [|discriminate].
    intros [= <- <-]. simpl. auto.
  - destruct reason as [x| |]; simpl;
      repeat match goal with |- context [if ?b then _ else _] => destruct b end;
      intros [= <- <-]; simpl; auto.
Qed.

(** X5: delegated-mode credentials are never cached: every resolution asks
    the broker once, under the configured connection name, and leaves both
    caches alone. *)
Theorem applink_resolution_asks_the_broker w :
  chronicle (snd (getCredentials env outside applink w))
  = GetAuthorization (getJwtConnectionName env) :: chronicle w
  /\ tokenCache (snd (getCredentials env outside applink w)) = tokenCache w
  /\ sessionCache (snd (getCredentials env outside applink w)) = sessionCache w.
Proof.
  simpl. unfold getTokenFromAppLink, getTokenFromAppLinkCatch. unfold_monad.
  destruct (authorizations outside _) as [data|reason]; simpl.
  - destruct (negb (truthy (auth_accessToken data))); simpl; auto.
  - destruct reason; simpl; auto.
Qed.


(** X7: no axios error ever leaves [newSession], [getSession] or
    [sendStreamingMessage]: what they raise is a plain [Error] or a thrown
    value the outside supplied that is no axios error. *)
Theorem no_axios_error_escapes :
  (forall a mode w e,
      fst (newSession env outside a mode w) = Throw e -> isAxiosError e = false)
  /\ (forall a mode w e,
         fst (getSession env outside a mode w) = Throw e -> isAxiosError e = false)
  /\ (forall text sequenceId a mode w e,
         fst (sendStreamingMessage env outside text sequenceId a mode w) = Throw e ->
         isAxiosError e = false).
Proof.
  repeat apply conj.
  - intros a mode w e. destruct (newSession env outside a mode w) as [r w'] eqn:E.
    destruct (newSession_frame env outside _ _ _ _ _ E) as (_ & _ & _ & _ & X & _).
    exact (X e).
  - intros a mode w e. destruct (getSession env outside a mode w) as [r w'] eqn:E.
    destruct (getSession_frame env outside _ _ _ _ _ E) as (_ & _ & _ & X & _).
    intros H. exact (proj1 (X e H)).
  - intros text sequenceId a mode w e.
    destruct (sendStreamingMessage env outside text sequenceId a mode w) as [r w'] eqn:E.
    destruct (sendStreamingMessage_frame env outside _ _ _ _ _ _ _ E)
      as (_ & _ & _ & X & _).
    exact (X e).
Qed.

(** X8: a session that [getSession] has resolved is returned again, from the
    world it left, without any request; entries under other keys are not
    touched; and a failed resolution stores nothing. *)
Theorem getSession_is_memoised a mode w :
  (forall s w1,
      getSession env outside a mode w = (Ok s, w1) ->
      getSession env outside a mode w1 = (Ok s, w1)
      /\ forall k, k <> (a, mode) -> sessionCache w1 !! k = sessionCache w !! k)
  /\ (forall e w1,
         getSession env outside a mode w = (Throw e, w1) ->
         sessionCache w1 = sessionCache w).
Proof.
  split.
  - intros s w1 E. split.
    + apply getSession_hit. exact (getSession_cached env outside _ _ _ _ _ E).
    + destruct (getSession_frame env outside _ _ _ _ _ E) as (_ & _ & _ & _ & K & _).
      exact K.
  - intros e w1 E.
    destruct (getSession_frame env outside _ _ _ _ _ E) as (_ & _ & _ & X & _).
    exact (proj2 (X e eq_refl)).
Qed.

(** X9: if every cached session carries a session id, this is still so
    after [getSession], [endSession] and [sendStreamingMessage], and every
    session [getSession] returns carries one. *)
Theorem cached_sessions_stay_identified w :
  sessionsIdentified w ->
  (forall a mode,
      sessionsIdentified (snd (getSession env outside a mode w))
      /\ forall s, fst (getSession env outside a mode w) = Ok s ->
                   truthy (sessionId s) = true)
  /\ (forall mode, sessionsIdentified (snd (endSession env outside mode w)))
  /\ (forall text sequenceId a mode,
         sessionsIdentified
           (snd (sendStreamingMessage env outside text sequenceId a mode w))).
Proof.
  intros Hinv. repeat apply conj.
  - intros a mode. destruct (getSession env outside a mode w) as [r w'] eqn:E.
    destruct (getSession_frame env outside _ _ _ _ _ E) as (_ & _ & _ & _ & _ & _ & I & _).
    exact (I Hinv).
  - intros mode. destruct (endSession env outside mode w) as [r w'] eqn:E.
    destruct (endSession_frame env outside _ _ _ _ E) as (_ & _ & _ & I & _).
    exact (I Hinv).
  - intros text sequenceId a mode.
    destruct (sendStreamingMessage env outside text sequenceId a mode w) as [r w'] eqn:E.
    destruct (sendStreamingMessage_frame env outside _ _ _ _ _ _ _ E)
      as (_ & _ & _ & _ & I & _).
    exact (I Hinv).
Qed.

(** X10: one [sendStreamingMessage] issues at most one message POST (it is
    never retried), no DELETE, at most three session POSTs, and waits at
    most 4500 ms. *)
Theorem sendStreamingMessage_budget text sequenceId a mode w :
  (issued isPostMessage
     (chronicle (snd (sendStreamingMessage env outside text sequenceId a mode w)))
   <= S (issued isPostMessage (chronicle w)))%nat
  /\ issued isDeleteSession
       (chronicle (snd (sendStreamingMessage env outside text sequenceId a mode w)))
     = issued isDeleteSession (chronicle w)
  /\ exists ms,
       marks (chronicle (snd (sendStreamingMessage env outside text sequenceId a mode w)))
       = ms ++ marks (chronicle w)
       /\ (attempts ms <= 3)%nat
       /\ 0 <= totalWait ms <= 4500.
Proof.
  destruct (sendStreamingMessage env outside text sequenceId a mode w) as [r w'] eqn:E.
  destruct (sendStreamingMessage_frame env outside _ _ _ _ _ _ _ E) as (M & D & P & _).
  simpl. auto.
Qed.

(** X11: one [endSession] issues at most one DELETE and no message POST, at
    most three session POSTs, and waits at most 4500 ms; and when the
    session cannot be resolved it issues no DELETE at all. *)
Theorem endSession_budget mode w :
  (issued isDeleteSession (chronicle (snd (endSession env outside mode w)))
   <= S (issued isDeleteSession (chronicle w)))%nat
  /\ issued isPostMessage (chronicle (snd (endSession env outside mode w)))
     = issued isPostMessage (chronicle w)
  /\ (exists ms,
         marks (chronicle (snd (endSession env outside mode w))) = ms ++ marks (chronicle w)
         /\ (attempts ms <= 3)%nat
         /\ 0 <= totalWait ms <= 4500)
  /\ (forall c w1 e w2,
         getCredentials env outside mode w = (Ok c, w1) ->
         getSession env outside None mode w1 = (Throw e, w2) ->
         issued isDeleteSession (chronicle (snd (endSession env outside mode w)))
         = issued isDeleteSession (chronicle w)).
Proof.
  destruct (endSession env outside mode w) as [r w'] eqn:E.
  destruct (endSession_frame env outside _ _ _ _ E) as (M & D & P & _ & _ & N).
  simpl. auto.
Qed.

End Guarantees.

(** ** Error classification *)

Section Classification.
Context (env : Env) (outside : Outside).

Ltac finish_cases :=
  repeat split; intros;
  repeat match goal with H : Some _ = Some _ |- _ => injection H as <- end;
  try congruence; try lia; auto.

Lemma hasCode_true x c : hasCode x c = true <-> code x = Some c.
Proof.
  unfold hasCode. destruct (code x) as [c'|]; [|split; discriminate].
  rewrite String.eqb_eq. split; congruence.
Qed.

Lemma requestToken_http_failures w x :
  oauth outside (issued isTokenRequest (chronicle w)) = Rejected (AxiosErr x) ->
  exists msg w1,
    requestToken env outside w = (Throw (PlainError msg), w1)
    /\ chronicle w1 = tokenRequestEvent env :: chronicle w
    /\ tokenCache w1 = tokenCache w
    /\ (code x = Some "ECONNABORTED" ->
        msg = "Authentication timeout: Unable to connect to Salesforce")
    /\ (code x <> Some "ECONNABORTED" ->
        (response x = None -> msg = "Authentication failed: Network error")
        /\ forall r,
             response x = Some r ->
             (status r = 401 -> msg = "Authentication failed: Invalid client credentials")
             /\ (500 <= status r ->
                 msg = "Authentication failed: Salesforce service temporarily unavailable")
             /\ (status r <> 401 -> status r < 500 -> status r <> 0 ->
                 msg = "Authentication failed: " +:+ pretty (status r))).
Proof.
  intros Hans. unfold requestToken, getTokenCatch. unfold_monad.
  rewrite Hans. simpl.
  destruct (hasCode x "ECONNABORTED") eqn:Hcode.
  { apply hasCode_true in Hcode. eexists _, _. split; [reflexivity|]. simpl.
    repeat split; auto; congruence. }
  assert (Hno : code x <> Some "ECONNABORTED").
  { intros H. apply hasCode_true in H. congruence. }
  unfold hasStatus, is5xx, statusOrNetworkError.
  destruct (response x) as [r|].
  2: { eexists _, _. split; [reflexivity|]. simpl. repeat split; auto; congruence. }
  destruct (status r =? 401) eqn:H401.
  { apply Z.eqb_eq in H401. eexists _, _. split; [reflexivity|]. simpl.
    finish_cases. }
  apply Z.eqb_neq in H401.
  destruct (500 <=? status r) eqn:H500.
  { apply Z.leb_le in H500. eexists _, _. split; [reflexivity|]. simpl.
    finish_cases. }
  apply Z.leb_gt in H500.
  destruct (status r =? 0) eqn:H0.
  { apply Z.eqb_eq in H0. eexists _, _. split; [reflexivity|]. simpl.
    finish_cases. }
  eexists _, _. split; [reflexivity|]. simpl. finish_cases.
Qed.

(** X12: how a rejected token request is reported.  The body of [getToken]
    raises a plain [Error]: a timeout ([ECONNABORTED]) wins over any status;
    otherwise 401 is "Invalid client credentials", a status of 500 or more
    is "temporarily unavailable", any other status is reported by its
    number, and a rejection without a response is a "Network error".  One
    token request was made and nothing is cached.  The caller of credential
    resolution receives that error across the "use cache" boundary: as it
    is in development, with the message omitted on a production server. *)
Theorem getToken_http_failures w x :
  tokenCache w = None ->
  oauth outside (issued isTokenRequest (chronicle w)) = Rejected (AxiosErr x) ->
  exists msg w1,
    requestToken env outside w = (Throw (PlainError msg), w1)
    /\ getCredentials env outside direct w
       = (Throw (acrossCache (NODE_ENV env) (PlainError msg)), w1)
    /\ chronicle w1 = tokenRequestEvent env :: chronicle w
    /\ tokenCache w1 = None
    /\ (code x = Some "ECONNABORTED" ->
        msg = "Authentication timeout: Unable to connect to Salesforce")
    /\ (code x <> Some "ECONNABORTED" ->
        (response x = None -> msg = "Authentication failed: Network error")
        /\ forall r,
             response x = Some r ->
             (status r = 401 -> msg = "Authentication failed: Invalid client credentials")
             /\ (500 <= status r ->
                 msg = "Authentication failed: Salesforce service temporarily unavailable")
             /\ (status r <> 401 -> status r < 500 -> status r <> 0 ->
                 msg = "Authentication failed: " +:+ pretty (status r))).
Proof.
  intros Hcold Hans.
  destruct (requestToken_http_failures w x Hans) as (msg & w1 & B & C & T & K1 & K2).
  exists msg, w1. split; [exact B|].
  split; [simpl; unfold getToken; rewrite Hcold, B; reflexivity|].
  split; [exact C|]. split; [rewrite T; exact Hcold|]. split; assumption.
Qed.

(** X13: the outcome of a dispatch whose input is valid and whose
    credentials and session are resolved.  A fulfilled POST gives back the
    stream as received; a rejected POST is reported once, never as an axios
    error: a 429 that is no timeout becomes "Rate limit exceeded", and a
    rejection that is no axios error is re-raised as it is.  Either way
    exactly one message POST was issued, carrying the trimmed text. *)
Theorem sendStreamingMessage_outcome text sequenceId a mode w c w1 s w2 :
  emptyText text = false ->
  negativeNumber sequenceId = false ->
  getCredentials env outside mode w = (Ok c, w1) ->
  getSession env outside a mode w1 = (Ok s, w2) ->
  (forall data,
      streams outside (issued isPostMessage (chronicle w2)) = Fulfilled data ->
      sendStreamingMessage env outside text sequenceId a mode w
      = (Ok data,
         emit (PostMessage
                 (apiInstanceUrl c
                    +:+ agentConfig.getStreamingEndpoint (template (sessionId s)))
                 ("Bearer " +:+ accessToken c) sequenceId (trim text)) w2))
  /\ (forall reason,
         streams outside (issued isPostMessage (chronicle w2)) = Rejected reason ->
         exists e,
           sendStreamingMessage env outside text sequenceId a mode w
           = (Throw e,
              logLine (LogError "Streaming message failed:" reason)
                (emit (PostMessage
                         (apiInstanceUrl c
                            +:+ agentConfig.getStreamingEndpoint (template (sessionId s)))
                         ("Bearer " +:+ accessToken c) sequenceId (trim text)) w2))
           /\ isAxiosError e = false
           /\ (isAxiosError reason = false -> e = reason)
           /\ (forall x,
                  reason = AxiosErr x ->
                  hasCode x "ECONNABORTED" = false ->
                  hasStatus x 429 = true ->
                  e = PlainError "Rate limit exceeded: Please wait a moment and try again")).
Proof.
  intros Htext Hseq Hc Hs. split.
  - intros data Hans. rewrite sendStreamingMessage_steps, Htext, Hseq, Hc, Hs. cbv zeta.
    rewrite Hans. reflexivity.
  - intros reason Hans. rewrite sendStreamingMessage_steps, Htext, Hseq, Hc, Hs. cbv zeta.
    rewrite Hans.
    destruct (sendStreamingMessageCatch_plain reason
                (emit (PostMessage
                         (apiInstanceUrl c
                            +:+ agentConfig.getStreamingEndpoint (template (sessionId s)))
                         ("Bearer " +:+ accessToken c) sequenceId (trim text)) w2))
      as (e & E & He).
    exists e. split; [exact E|]. split; [exact He|].
    unfold sendStreamingMessageCatch in E. unfold_monad. simpl in E. split.
    + destruct reason as [x| |]; simpl; [discriminate|intros _; congruence..].
    + intros x -> Hcode H429. rewrite Hcode in E.
      unfold hasStatus in *. destruct (response x) as [r|]; [|discriminate].
      apply Z.eqb_eq in H429. rewrite H429 in E. simpl in E. congruence.
Qed.

(** X14: how the delegated provider reports its failures.  An authorization
    without an access token, an [Error] of the broker and any other thrown
    value all become a plain [Error] that names the AppLink strategy; the
    message of the underlying [Error] is kept after the prefix. *)
Theorem applink_failures_name_the_strategy w :
  (forall data,
      authorizations outside (issued isGetAuthorization (chronicle w)) = Fulfilled data ->
      truthy (auth_accessToken data) = false ->
      fst (getCredentials env outside applink w)
      = Throw (PlainError
                 ("AppLink authentication failed: "
                    +:+ "Invalid AppLink authorization response: missing access token")))
  /\ (forall msg,
         authorizations outside (issued isGetAuthorization (chronicle w))
         = Rejected (PlainError msg) ->
         fst (getCredentials env outside applink w)
         = Throw (PlainError ("AppLink authentication failed: " +:+ msg)))
  /\ (forall v,
         authorizations outside (issued isGetAuthorization (chronicle w))
         = Rejected (NonError v) ->
         fst (getCredentials env outside applink w)
         = Throw (PlainError
                    "AppLink authentication failed: Unable to retrieve credentials")).
Proof.
  simpl. unfold getTokenFromAppLink, getTokenFromAppLinkCatch. unfold_monad.
  repeat apply conj.
  - intros data -> Hbad. simpl. rewrite Hbad. reflexivity.
  - intros msg ->. reflexivity.
  - intros v ->. reflexivity.
Qed.

(** X15: when every authorization the broker hands out lacks the access
    token, [newSession] in delegated mode fails with the error that names
    the AppLink strategy, after asking the broker three times and without
    any session POST. *)
Theorem newSession_applink_without_token a w :
  (forall k, exists data,
      authorizations outside k = Fulfilled data
      /\ truthy (auth_accessToken data) = false) ->
  exists w',
    newSession env outside a applink w
    = (Throw (PlainError
                "AppLink authentication failed: Invalid AppLink authorization response: missing access token"),
       w')
    /\ issued isGetAuthorization (chronicle w')
       = (3 + issued isGetAuthorization (chronicle w))%nat
    /\ issued isCreateSession (chronicle w') = issued isCreateSession (chronicle w).
Proof.
  intros Hbad.
  assert (G : forall w0,
             getCredentials env outside applink w0
             = (Throw (PlainError
                         "AppLink authentication failed: Invalid AppLink authorization response: missing access token"),
                logLine (LogError "AppLink authentication failed:"
                           (PlainError
                              "Invalid AppLink authorization response: missing access token"))
                  (emit (GetAuthorization (getJwtConnectionName env)) w0))).
  { intros w0. simpl. unfold getTokenFromAppLink, getTokenFromAppLinkCatch. unfold_monad.
    destruct (Hbad (issued isGetAuthorization (chronicle w0))) as (data & -> & Hd).
    simpl. rewrite Hd. reflexivity. }
  pose proof (newSessionAttempt_no_credentials env outside a applink _ _ _ (G w)) as A1.
  match type of A1 with _ = (_, ?x) => set (w1 := x) in * end.
  pose proof (newSessionAttempt_no_credentials env outside a applink _ _ _
                (G (emit (Sleep 1500) w1))) as A2.
  match type of A2 with _ = (_, ?x) => set (w2 := x) in * end.
  pose proof (newSessionAttempt_no_credentials env outside a applink _ _ _
                (G (emit (Sleep 3000) w2))) as A3.
  eexists. split; [exact (newSession_chain env outside _ _ _ _ _ _ _ _ _ A1 A2 A3)|].
  split; reflexivity.
Qed.

End Classification.

(** ** Trimming, endpoints and the helpers of the diagnostic routes *)

Lemma trimStart_split s :
  exists p, s = p ++ trimStart s /\ forallb isWhiteSpace p = true.
Proof.
  induction s as [|c s (p & Hs & Hp)]; simpl.
  - exists []. split; reflexivity.
  - destruct (isWhiteSpace c) eqn:Hc.
    + exists (c :: p). simpl. rewrite Hc, Hp. split; [congruence|reflexivity].
    + exists []. split; reflexivity.
Qed.

Lemma trimStart_keeps s :
  (forall c r, s = c :: r -> isWhiteSpace c = false) -> trimStart s = s.
Proof.
  destruct s as [|c r]; [reflexivity|]. intros H. simpl. rewrite (H c r eq_refl). reflexivity.
Qed.

Lemma forallb_rev_of (f : N -> bool) s : forallb f s = true -> forallb f (rev s) = true.
Proof. intros H. apply forallb_rev_true. rewrite rev_involutive. exact H. Qed.

(** X16: [trim] removes white space and nothing else, from both ends and
    completely: the text is a run of white space, the trimmed text, and a
    run of white space; the trimmed text, unless empty, neither begins nor
    ends with white space; and trimming again changes nothing. *)
Theorem trim_decomposition s :
  (exists p q,
      s = p ++ trim s ++ q
      /\ forallb isWhiteSpace p = true
      /\ forallb isWhiteSpace q = true)
  /\ (trim s = []
      \/ (exists c, hd_error (trim s) = Some c /\ isWhiteSpace c = false)
         /\ (exists c, hd_error (rev (trim s)) = Some c /\ isWhiteSpace c = false))
  /\ trim (trim s) = trim s.
Proof.
  unfold trim, trimEnd.
  destruct (trimStart_split s) as (p & Hs & Hp).
  destruct (trimStart_split (rev (trimStart s))) as (q & Ht & Hq).
  set (t := trimStart s) in *. set (u := trimStart (rev t)) in *.
  assert (Htq : t = rev u ++ rev q).
  { rewrite <- rev_app_distr, <- Ht. symmetry. apply rev_involutive. }
  assert (Hhead : rev u = []
                  \/ (exists c, hd_error (rev u) = Some c /\ isWhiteSpace c = false)
                     /\ (exists c, hd_error (rev (rev u)) = Some c /\ isWhiteSpace c = false)).
  { destruct (rev u) as [|c r] eqn:Hu; [left; reflexivity|]. right. split.
    - exists c. split; [reflexivity|].
      destruct (trimStart_head s) as [E | (c' & r' & E & Hc')]; fold t in E;
        rewrite Htq in E; simpl in E; [discriminate|congruence].
    - rewrite <- Hu, rev_involutive.
      destruct (trimStart_head (rev t)) as [E | (c' & r' & E & Hc')]; fold u in E.
      + rewrite E in Hu. discriminate.
      + exists c'. rewrite E. auto. }
  split; [|split].
  - exists p, (rev q). split; [rewrite <- Htq; exact Hs|].
    split; [exact Hp|apply forallb_rev_of; exact Hq].
  - exact Hhead.
  - assert (H1 : trimStart (rev u) = rev u).
    { apply trimStart_keeps. intros c r E.
      destruct Hhead as [H0 | [(c0 & H0 & Hc0) _]]; rewrite E in H0;
        [discriminate|simpl in H0; congruence]. }
    rewrite H1, rev_involutive.
    assert (H2 : trimStart u = u).
    { apply trimStart_keeps. intros c r E.
      destruct (trimStart_head (rev t)) as [E0 | (c' & r' & E0 & Hc')]; fold u in E0;
        congruence. }
    rewrite H2. reflexivity.
Qed.

Lemma substring_all s : String.substring 0 (String.length s) s = s.
Proof. induction s as [|c s IH]; simpl; [reflexivity|]. rewrite IH. reflexivity. Qed.

Lemma substring_skip p s :
  String.substring (String.length p) (String.length (p +:+ s) - String.length p) (p +:+ s) = s.
Proof.
  induction p as [|c p IH]; simpl.
  - rewrite Nat.sub_0_r. apply substring_all.
  - exact IH.
Qed.

Lemma replaceFirst_prefix pat rep s : replaceFirst pat rep (pat +:+ s) = rep +:+ s.
Proof.
  assert (Hunfold : forall x,
             replaceFirst pat rep x
             = if String.prefix pat x
               then rep +:+ String.substring (String.length pat)
                              (String.length x - String.length pat) x
               else match x with
                    | EmptyString => EmptyString
                    | String c rest => String c (replaceFirst pat rep rest)
                    end).
  { intros x. destruct x; reflexivity. }
  rewrite Hunfold, prefix_append, substring_skip. reflexivity.
Qed.

(** X17: for a domain URL that begins with https://, [baseUrl] is the URL
    without the scheme (only that first occurrence is removed), so the
    token endpoint and every API endpoint are the domain URL followed by
    the path. *)
Theorem baseUrl_strips_the_scheme env host :
  SF_MY_DOMAIN_URL env = "https://" +:+ host ->
  agentConfig.baseUrl env = host
  /\ agentConfig.getAuthEndpoint env = SF_MY_DOMAIN_URL env +:+ "/services/oauth2/token"
  /\ forall path, agentConfig.getApiEndpoint env path = SF_MY_DOMAIN_URL env +:+ path.
Proof.
  intros Hurl.
  assert (Hbase : agentConfig.baseUrl env = host).
  { unfold agentConfig.baseUrl. rewrite Hurl. apply (replaceFirst_prefix "https://" "" host). }
  unfold agentConfig.getAuthEndpoint, agentConfig.getApiEndpoint.
  rewrite Hbase, Hurl. repeat split.
Qed.





Lemma splitDots_cons s : exists first others, splitDots s = first :: others.
Proof.
  induction s as [|c s (f & o & IH)]; simpl; [eauto|].
  destruct (Ascii.eqb c "."); [eauto|]. rewrite IH. eauto.
Qed.

Lemma splitDots_concat s : String.concat "." (splitDots s) = s.
Proof.
  induction s as [|c s IH]; [reflexivity|]. cbn [splitDots].
  destruct (splitDots_cons s) as (f & o & E). rewrite E in *.
  destruct (Ascii.eqb_spec c "."%char) as [->|Hc].
  - change (String.concat "." (EmptyString :: f :: o))
      with (EmptyString +:+ "." +:+ String.concat "." (f :: o)).
    rewrite IH. reflexivity.
  - destruct o as [|x o'].
    + cbn in IH |- *. rewrite IH. reflexivity.
    + change (String.concat "." (String c f :: x :: o'))
        with (String c (f +:+ "." +:+ String.concat "." (x :: o'))).
      change (String.concat "." (f :: x :: o'))
        with (f +:+ "." +:+ String.concat "." (x :: o')) in IH.
      rewrite IH. reflexivity.
Qed.

Lemma splitDots_dotless s : Forall (fun part => hasDot part = false) (splitDots s).
Proof.
  induction s as [|c s IH]; simpl; [repeat constructor|].
  destruct (Ascii.eqb c ".") eqn:Hc; [constructor; [reflexivity|exact IH]|].
  destruct (splitDots s) as [|f o]; [repeat constructor; simpl; rewrite Hc; reflexivity|].
  inversion IH; subst. constructor; [simpl; rewrite Hc; assumption|assumption].
Qed.

(** X20: [decodeJwt] yields claims only for a token made of exactly three
    dot-separated segments, and then they are what the payload decoder makes
    of the middle segment; for any other number of segments it is [null]. *)
Theorem decodeJwt_three_segments {Claims : Type} (parsePayload : string -> option Claims)
    (token : string) (claims : Claims) :
  decodeJwt parsePayload token = Some claims ->
  exists header payload signature,
    token = header +:+ "." +:+ payload +:+ "." +:+ signature
    /\ hasDot header = false /\ hasDot payload = false /\ hasDot signature = false
    /\ parsePayload payload = Some claims.
Proof.
  unfold decodeJwt. pose proof (splitDots_concat token) as Hjoin.
  pose proof (splitDots_dotless token) as Hdots.
  destruct (splitDots token) as [|h [|p [|g [|x rest]]]]; simpl; try discriminate.
  intros Hparse. exists h, p, g. simpl in Hjoin.
  inversion Hdots as [|? ? Hh Hrest]; subst. inversion Hrest as [|? ? Hp Hrest']; subst.
  inversion Hrest' as [|? ? Hg _]; subst. auto.
Qed.

(** ** The further properties on the scenarios *)

Import Trouble.

(** A 503 each time, three retries allowed: waits of 1000, 2000 and 3000 ms. *)
Lemma retryOperation_linear_backoff_witness :
  exists k,
    (k <= 3)%nat
    /\ List.filter isSleep
         (chronicle (snd (retryOperation (alwaysFails (httpFailure 503)) 3 1000 cold)))
       = map (fun i => Sleep (1000 * Z.of_nat i)) (rev (seq 1 k))
         ++ List.filter isSleep (chronicle cold)
    /\ (k = 3%nat
        \/ match fst (retryOperation (alwaysFails (httpFailure 503)) 3 1000 cold) with
           | Ok _ => True
           | Throw e => clientError e = true
           end).
Proof.
  apply (retryOperation_linear_backoff (alwaysFails (httpFailure 503)) 3 1000 cold).
  - intros w0 r0 w1 [= <- <-]. reflexivity.
  - reflexivity.
Defined.

Lemma cached_token_is_reused_witness :
  (forall a mode, tokenKept credentials warm (snd (newSession env friendly a mode warm)))
  /\ (forall a mode, tokenKept credentials warm (snd (getSession env friendly a mode warm)))
  /\ (forall mode, tokenKept credentials warm (snd (endSession env friendly mode warm)))
  /\ (forall text sequenceId a mode,
         tokenKept credentials warm
           (snd (sendStreamingMessage env friendly text sequenceId a mode warm))).
Proof. exact (cached_token_is_reused env friendly credentials warm eq_refl). Defined.

Lemma getToken_failure_is_not_cached_witness :
  tokenCache cold = None
  /\ tokenCache (snd (getCredentials env (tokenAnswers 503) direct cold)) = None
  /\ chronicle (snd (getCredentials env (tokenAnswers 503) direct cold))
     = tokenRequestEvent env :: chronicle cold
  /\ sessionCache (snd (getCredentials env (tokenAnswers 503) direct cold))
     = sessionCache cold.
Proof.
  exact (getToken_failure_is_not_cached env (tokenAnswers 503) cold
           (PlainError omittedMessage)
           (snd (getCredentials env (tokenAnswers 503) direct cold)) eq_refl).
Defined.


Lemma cached_sessions_stay_identified_witness :
  (forall a mode,
      sessionsIdentified (snd (getSession env friendly a mode warm))
      /\ forall s, fst (getSession env friendly a mode warm) = Ok s ->
                   truthy (sessionId s) = true)
  /\ (forall mode, sessionsIdentified (snd (endSession env friendly mode warm)))
  /\ (forall text sequenceId a mode,
         sessionsIdentified
           (snd (sendStreamingMessage env friendly text sequenceId a mode warm))).
Proof.
  apply (cached_sessions_stay_identified env friendly warm).
  intros k s H.
  change (({[ (None, direct) := session ]} : gmap (option string * AuthMode) SessionData)
            !! k = Some s) in H.
  apply lookup_singleton_Some in H as [_ <-]. reflexivity.
Defined.

(** A token endpoint that answers 403: the body reports the status by its
    number; the caller receives that in development, and the error with the
    message omitted on a production server. *)
Lemma getToken_http_failures_witness :
  (exists msg w1,
      requestToken env (tokenAnswers 403) cold = (Throw (PlainError msg), w1)
      /\ getCredentials env (tokenAnswers 403) direct cold
         = (Throw (PlainError omittedMessage), w1)
      /\ msg = "Authentication failed: 403")
  /\ (exists msg w1,
         requestToken envInDevelopment (tokenAnswers 403) cold
         = (Throw (PlainError msg), w1)
         /\ getCredentials envInDevelopment (tokenAnswers 403) direct cold
            = (Throw (PlainError msg), w1)
         /\ msg = "Authentication failed: 403").
Proof.
  split.
  - destruct (getToken_http_failures env (tokenAnswers 403) cold
                (mkAxiosError "Request failed" None (Some (mkResponse 403 "")))
                eq_refl eq_refl)
      as (msg & w1 & B & E & _ & _ & _ & H).
    exists msg, w1. split; [exact B|]. split; [exact E|].
    destruct (H ltac:(discriminate)) as [_ H'].
    destruct (H' (mkResponse 403 "") eq_refl) as (_ & _ & H403).
    apply H403; simpl; lia.
  - destruct (getToken_http_failures envInDevelopment (tokenAnswers 403) cold
                (mkAxiosError "Request failed" None (Some (mkResponse 403 "")))
                eq_refl eq_refl)
      as (msg & w1 & B & E & _ & _ & _ & H).
    exists msg, w1. split; [exact B|]. split; [exact E|].
    destruct (H ltac:(discriminate)) as [_ H'].
    destruct (H' (mkResponse 403 "") eq_refl) as (_ & _ & H403).
    apply H403; simpl; lia.
Defined.

(** A message POST answered 429. *)
Lemma sendStreamingMessage_outcome_witness :
  exists e,
    fst (sendStreamingMessage env (streamsAnswer 429) hi 1%float None direct warm) = Throw e
    /\ e = PlainError "Rate limit exceeded: Please wait a moment and try again".
Proof.
  destruct (sendStreamingMessage_outcome env (streamsAnswer 429) hi 1%float None direct warm
              credentials warm session warm eq_refl eq_refl eq_refl eq_refl) as [_ H].
  destruct (H (httpFailure 429) eq_refl) as (e & E & _ & _ & H429).
  exists e. split; [rewrite E; reflexivity|].
  exact (H429 _ eq_refl eq_refl eq_refl).
Defined.

Lemma newSession_applink_without_token_witness :
  exists w',
    newSession env brokerWithoutToken None applink cold
    = (Throw (PlainError
                "AppLink authentication failed: Invalid AppLink authorization response: missing access token"),
       w')
    /\ issued isGetAuthorization (chronicle w') = 3%nat
    /\ issued isCreateSession (chronicle w') = 0%nat.
Proof.
  apply (newSession_applink_without_token env brokerWithoutToken None cold).
  intros k. eexists. split; reflexivity.
Defined.

Lemma baseUrl_strips_the_scheme_witness :
  agentConfig.baseUrl env = "acme.my.salesforce.com"
  /\ agentConfig.getAuthEndpoint env
     = SF_MY_DOMAIN_URL env +:+ "/services/oauth2/token"
  /\ forall path, agentConfig.getApiEndpoint env path = SF_MY_DOMAIN_URL env +:+ path.
Proof. exact (baseUrl_strips_the_scheme env "acme.my.salesforce.com" eq_refl). Defined.


(** A token of three segments, with the identity as payload decoder. *)
Lemma decodeJwt_three_segments_witness :
  exists header payload signature,
    "eyJhbGciOiJSUzI1NiJ9.eyJzY3AiOiJhcGkifQ.c2ln"
    = header +:+ "." +:+ payload +:+ "." +:+ signature
    /\ hasDot header = false /\ hasDot payload = false /\ hasDot signature = false
    /\ Some payload = Some "eyJzY3AiOiJhcGkifQ".
Proof.
  exact (decodeJwt_three_segments (fun part => Some part)
           "eyJhbGciOiJSUzI1NiJ9.eyJzY3AiOiJhcGkifQ.c2ln" "eyJzY3AiOiJhcGkifQ" eq_refl).
Defined.
